(** * kaathuvaakla_kaasu: the booking game's session model, in Rocq

    A shallow embedding of [game_models.py], [game_logic.py],
    [connection_manager.py] and the game-driving part of [main.py],
    followed by the properties of the session state machine, the scoring
    engine, the booking generator and the broadcaster.

    Conventions.
    - Python [int] is [Z]; [str] is [string]; [List[T]] is [list T].
    - [Dict[int, _]] (the per-player histories) is a [gmap Z _].
    - [Dict[str, Player]] is iterated ([.values()]) while the random
      generator is consumed, so its insertion order is kept: it is an
      association list (module [odict]).
    - The [random] module is a stream of raw draws with a cursor; every call
      of [random.*] takes the next draw(s). *)

From stdpp Require Import gmap strings list fin_maps pretty.
From Stdlib Require Import ZArith Ascii.

Local Open Scope string_scope.
Local Open Scope list_scope.
Local Open Scope Z_scope.

(** ** The [random] module *)

Module random.

(** The generator: an infinite stream of raw draws and the position of the
    next one. *)
Record Random := { draws : nat → Z; cursor : nat }.

Definition Rand (A : Type) : Type := Random → A * Random.

Definition ret {A} (a : A) : Rand A := λ g, (a, g).

Definition bind {A B} (m : Rand A) (k : A → Rand B) : Rand B :=
  λ g, let '(a, g') := m g in k a g'.

Definition next_draw : Rand Z :=
  λ g, (draws g (cursor g), {| draws := draws g; cursor := S (cursor g) |}).

(** [random.random()] is [k / 2^53] for a uniformly drawn 53-bit [k]; the
    numerator [k] is what is returned here. *)
Definition random : Rand Z :=
  bind next_draw (λ d, ret (d `mod` 2 ^ 53)).

(** [random.randint(a, b)], for [a <= b]. *)
Definition randint (a b : Z) : Rand Z :=
  bind next_draw (λ d, ret (a + d `mod` (b - a + 1))).

(** [random.choice(seq)]: the element at a drawn index below [len(seq)].
    [d] stands for the element type's default and is returned only for
    the empty sequence (where Python raises [IndexError]); every sequence
    the program passes is non-empty. *)
Definition choice {A} (d : A) (seq : list A) : Rand A :=
  bind next_draw (λ i,
    ret (default d (seq !! Z.to_nat (i `mod` Z.of_nat (length seq))))).

(** [random.sample(population, k)]: [k] elements at distinct positions,
    in selection order; each step takes the element at a drawn index out of
    the remaining pool. *)
Fixpoint sample {A} (population : list A) (k : nat) : Rand (list A) :=
  match k with
  | O => ret []
  | S k' =>
      bind next_draw (λ i,
        let j := Z.to_nat (i `mod` Z.of_nat (length population)) in
        match population !! j with
        | None => ret []
        | Some x => bind (sample (delete j population) k') (λ xs, ret (x :: xs))
        end)
  end.

End random.

#[global] Instance Rand_ret : MRet random.Rand := @random.ret.
#[global] Instance Rand_bind : MBind random.Rand :=
  λ A B k m, random.bind m k.

(** ** Insertion-ordered dictionaries with string keys *)

Module odict.

Definition t (V : Type) : Type := list (string * V).

(** [d.get(k)] *)
Fixpoint get {V} (d : t V) (k : string) : option V :=
  match d with
  | [] => None
  | (k', v) :: d' => if decide (k' = k) then Some v else get d' k
  end.

(** [d[k] = v]: replaces the value in place when the key is present,
    appends the pair otherwise. *)
Fixpoint set {V} (d : t V) (k : string) (v : V) : t V :=
  match d with
  | [] => [(k, v)]
  | (k', v') :: d' =>
      if decide (k' = k) then (k', v) :: d' else (k', v') :: set d' k v
  end.

(** [d.values()] *)
Definition values {V} (d : t V) : list V := d.*2.

(** [d.keys()] *)
Definition keys {V} (d : t V) : list string := d.*1.

End odict.

(** ** [game_models.py] *)

Module game_models.

Definition FLIGHT_CAPACITY : Z := 100.
Definition OVERBOOKING_PENALTY_PER_SEAT : Z := 6000.
Definition UNDERBOOKING_PENALTY_PER_SEAT : Z := 3000.
Definition AVG_SEAT_PRICE : Z := 4000.

(** [CANCELLATION_PROBABILITY = 0.1]: the double nearest to one tenth is
    exactly [3602879701896397 / 2^55]. [above_cancellation k] is the test
    [k / 2^53 > CANCELLATION_PROBABILITY] on a result of
    [random.random()], an exact comparison of two doubles. *)
Definition CANCELLATION_PROBABILITY_NUM : Z := 3602879701896397.

Definition above_cancellation (k : Z) : bool :=
  bool_decide (CANCELLATION_PROBABILITY_NUM < 4 * k).

Record Passenger := {
  profession : string;
  sex : string;
  age_group : string;
  region : string;
}.

Record BookingRequest := {
  booking_id : Z;
  volume : Z;
  price_per_seat : Z;
  anchor_type : string;
  anchor_value : string;
  passengers : list Passenger;
}.

Record Player := {
  player_id : string;
  name : string;
  accepted_bookings : list BookingRequest;
  final_revenue : Z;
  overbooking_penalty : Z;
  underbooking_penalty : Z;
  total_score : Z;
  choice_history : gmap Z string;
  show_up_history : gmap Z Z;
}.

(** [Player(player_id=.., name=..)] with the field defaults. *)
Definition new_Player (pid nm : string) : Player :=
  {| player_id := pid; name := nm; accepted_bookings := [];
     final_revenue := 0; overbooking_penalty := 0;
     underbooking_penalty := 0; total_score := 0;
     choice_history := ∅; show_up_history := ∅ |}.

Record GameRoom := {
  room_id : string;
  host_id : string;
  players : odict.t Player;
  bookings : list BookingRequest;
  current_round : Z;
  game_status : string;
}.

(** [GameRoom(room_id=.., host_id=..)] with the field defaults. *)
Definition new_GameRoom (rid hid : string) : GameRoom :=
  {| room_id := rid; host_id := hid; players := []; bookings := [];
     current_round := 0; game_status := "WAITING" |}.

Definition add_player (self : GameRoom) (pid nm : string) : GameRoom :=
  match odict.get (players self) pid with
  | Some _ => self
  | None =>
      {| room_id := room_id self; host_id := host_id self;
         players := odict.set (players self) pid (new_Player pid nm);
         bookings := bookings self; current_round := current_round self;
         game_status := game_status self |}
  end.

Definition get_current_booking (self : GameRoom) : option BookingRequest :=
  if bool_decide (0 ≤ current_round self
                  ∧ current_round self < Z.of_nat (length (bookings self)))
  then bookings self !! Z.to_nat (current_round self)
  else None.

(** The body of the loop of [advance_to_next_round], for one player. *)
Definition log_rejection (hid : string) (b : BookingRequest) (p : Player)
  : Player :=
  if bool_decide (player_id p ≠ hid ∧ choice_history p !! booking_id b = None)
  then {| player_id := player_id p; name := name p;
          accepted_bookings := accepted_bookings p;
          final_revenue := final_revenue p;
          overbooking_penalty := overbooking_penalty p;
          underbooking_penalty := underbooking_penalty p;
          total_score := total_score p;
          choice_history := <[booking_id b := "Rejected"]> (choice_history p);
          show_up_history := show_up_history p |}
  else p.

(** The inner loop of [calculate_final_score]: one draw per passenger,
    counting those above the cancellation probability. *)
Fixpoint count_showed_up (ps : list Passenger) (passengers_showed_up : Z)
  : random.Rand Z :=
  match ps with
  | [] => random.ret passengers_showed_up
  | _ :: ps' =>
      x ← random.random ;
      count_showed_up ps'
        (if above_cancellation x then passengers_showed_up + 1
         else passengers_showed_up)
  end.

(** The locals and the one field the outer loop of [calculate_final_score]
    updates. *)
Record Tally := {
  total_showed_up : Z;
  total_revenue : Z;
  history : gmap Z Z;
}.

Fixpoint score_bookings (bs : list BookingRequest) (t : Tally)
  : random.Rand Tally :=
  match bs with
  | [] => random.ret t
  | booking :: bs' =>
      n ← count_showed_up (passengers booking) 0 ;
      score_bookings bs'
        {| total_showed_up := total_showed_up t + n;
           total_revenue := total_revenue t + n * price_per_seat booking;
           history := <[booking_id booking := n]> (history t) |}
  end.

Definition calculate_final_score (player : Player) : random.Rand Player :=
  t ← score_bookings (accepted_bookings player)
        {| total_showed_up := 0; total_revenue := 0;
           history := show_up_history player |} ;
  let over :=
    if bool_decide (total_showed_up t > FLIGHT_CAPACITY)
    then (total_showed_up t - FLIGHT_CAPACITY) * OVERBOOKING_PENALTY_PER_SEAT
    else overbooking_penalty player in
  let under :=
    if bool_decide (total_showed_up t > FLIGHT_CAPACITY)
    then underbooking_penalty player
    else if bool_decide (total_showed_up t < FLIGHT_CAPACITY)
    then (FLIGHT_CAPACITY - total_showed_up t) * UNDERBOOKING_PENALTY_PER_SEAT
    else underbooking_penalty player in
  random.ret
    {| player_id := player_id player; name := name player;
       accepted_bookings := accepted_bookings player;
       final_revenue := total_revenue t;
       overbooking_penalty := over;
       underbooking_penalty := under;
       total_score := total_revenue t - over - under;
       choice_history := choice_history player;
       show_up_history := history t |}.

(** [for player in self.players.values(): self.calculate_final_score(player)] *)
Fixpoint score_players (ps : odict.t Player) : random.Rand (odict.t Player) :=
  match ps with
  | [] => random.ret []
  | (k, p) :: ps' =>
      p' ← calculate_final_score p ;
      ps'' ← score_players ps' ;
      random.ret ((k, p') :: ps'')
  end.

Definition end_game (self : GameRoom) : random.Rand GameRoom :=
  ps ← score_players (players self) ;
  random.ret
    {| room_id := room_id self; host_id := host_id self; players := ps;
       bookings := bookings self; current_round := current_round self;
       game_status := "FINISHED" |}.

Definition advance_to_next_round (self : GameRoom) : random.Rand GameRoom :=
  let logged :=
    match get_current_booking self with
    | Some current_booking =>
        prod_map id (log_rejection (host_id self) current_booking)
          <$> players self
    | None => players self
    end in
  if bool_decide (current_round self < Z.of_nat (length (bookings self)))
  then
    let self' :=
      {| room_id := room_id self; host_id := host_id self;
         players := logged; bookings := bookings self;
         current_round := current_round self + 1;
         game_status := game_status self |} in
    if bool_decide (current_round self' = Z.of_nat (length (bookings self')))
    then end_game self'
    else random.ret self'
  else
    random.ret
      {| room_id := room_id self; host_id := host_id self;
         players := logged; bookings := bookings self;
         current_round := current_round self;
         game_status := game_status self |}.

(** The update [player_accept_booking] makes to the player found. *)
Definition accept (b : BookingRequest) (p : Player) : Player :=
  {| player_id := player_id p; name := name p;
     accepted_bookings := accepted_bookings p ++ [b];
     final_revenue := final_revenue p;
     overbooking_penalty := overbooking_penalty p;
     underbooking_penalty := underbooking_penalty p;
     total_score := total_score p;
     choice_history := <[booking_id b := "Accepted"]> (choice_history p);
     show_up_history := show_up_history p |}.

Definition player_accept_booking (self : GameRoom) (pid : string)
  : GameRoom :=
  match odict.get (players self) pid, get_current_booking self with
  | Some player, Some current_booking =>
      {| room_id := room_id self; host_id := host_id self;
         players := odict.set (players self) pid (accept current_booking player);
         bookings := bookings self; current_round := current_round self;
         game_status := game_status self |}
  | _, _ => self
  end.

Definition start_game (self : GameRoom) : GameRoom :=
  {| room_id := room_id self; host_id := host_id self;
     players := players self; bookings := bookings self;
     current_round := 0; game_status := "IN_PROGRESS" |}.

End game_models.

(** ** The two [str] methods [game_logic.py] uses, on ASCII strings *)

Module str.

Definition is_upper (c : ascii) : bool :=
  let n := nat_of_ascii c in (65 <=? n)%nat && (n <=? 90)%nat.

Definition is_lower (c : ascii) : bool :=
  let n := nat_of_ascii c in (97 <=? n)%nat && (n <=? 122)%nat.

Definition upper (c : ascii) : ascii :=
  if is_lower c then ascii_of_nat (nat_of_ascii c - 32) else c.

Definition lower (c : ascii) : ascii :=
  if is_upper c then ascii_of_nat (nat_of_ascii c + 32) else c.

(** [s.replace(old, new)] for one-character [old] and [new]. *)
Fixpoint replace (old new : ascii) (s : string) : string :=
  match s with
  | EmptyString => EmptyString
  | String c s' =>
      String (if decide (c = old) then new else c) (replace old new s')
  end.

(** [s.title()]: a letter that follows a letter is lower-cased, any other
    letter is upper-cased. *)
Fixpoint title_from (previous_is_cased : bool) (s : string) : string :=
  match s with
  | EmptyString => EmptyString
  | String c s' =>
      if is_upper c || is_lower c
      then String (if previous_is_cased then lower c else upper c)
             (title_from true s')
      else String c (title_from false s')
  end.

Definition title (s : string) : string := title_from false s.

End str.

(** ** [game_logic.py] *)

Module game_logic.
Import game_models.

Definition PROFESSIONS : list string :=
  ["Engineer"; "Doctor"; "Artist"; "Farmer"; "Teacher"; "Lawyer"; "Student";
   "Politician"].
Definition SEXES : list string := ["Male"; "Female"].
Definition AGE_GROUPS : list string := ["18-25"; "26-40"; "41-60"; "60+"].
Definition INDIAN_STATES : list string :=
  ["Andhra Pradesh"; "Arunachal Pradesh"; "Assam"; "Bihar"; "Chhattisgarh";
   "Goa"; "Gujarat"; "Haryana"; "Himachal Pradesh"; "Jharkhand"; "Karnataka";
   "Kerala"; "Madhya Pradesh"; "Maharashtra"; "Manipur"; "Meghalaya";
   "Mizoram"; "Nagaland"; "Odisha"; "Punjab"; "Rajasthan"; "Sikkim";
   "Tamil Nadu"; "Telangana"; "Tripura"; "Uttar Pradesh"; "Uttarakhand";
   "West Bengal"; "Delhi"; "Puducherry"].
Definition TOTAL_BOOKINGS_PER_GAME : nat := 15.

(** [int(4000 * random.uniform(0.75, 1.5))] with
    [uniform(a, b) = a + (b - a) * random()], computed on the reals: for
    [random() = k / 2^53] this is [3000 + floor(3000 k / 2^53)]. The
    rounding of the three double operations is not modelled. *)
Definition price_draw : random.Rand Z :=
  k ← random.random;
  mret (3000 + (3000 * k) `div` 2 ^ 53).

(** One entry of the [passenger_profile] dictionary. *)
Definition attribute (dimension anchor_type anchor_value : string)
    (pool : list string) : random.Rand string :=
  if decide (anchor_type = dimension) then mret anchor_value
  else random.choice "" pool.

(** The loop [for _ in range(volume)]. *)
Fixpoint generate_passengers (volume : nat)
    (anchor_type anchor_value : string) (selected_regions : list string)
  : random.Rand (list Passenger) :=
  match volume with
  | O => mret []
  | S volume' =>
      pr ← attribute "profession" anchor_type anchor_value PROFESSIONS;
      sx ← attribute "sex" anchor_type anchor_value SEXES;
      ag ← attribute "age_group" anchor_type anchor_value AGE_GROUPS;
      rg ← attribute "region" anchor_type anchor_value selected_regions;
      ps ← generate_passengers volume' anchor_type anchor_value
             selected_regions;
      mret ({| profession := pr; sex := sx; age_group := ag; region := rg |}
            :: ps)
  end.

(** One iteration of the loop of [generate_bookings]. Besides the booking
    it returns the iteration's local [selected_regions], which the booking
    itself does not store. *)
Definition generate_booking (i : Z)
  : random.Rand (list string * BookingRequest) :=
  volume ← random.randint 5 15;
  price_per_seat ← price_draw;
  anchor_type ←
    random.choice "" ["profession"; "sex"; "age_group"; "region"];
  let max_regions := 3%nat in
  selected_regions ←
    random.sample INDIAN_STATES (length INDIAN_STATES `min` max_regions);
  anchor_value ←
    (if decide (anchor_type = "profession") then random.choice "" PROFESSIONS
     else if decide (anchor_type = "sex") then random.choice "" SEXES
     else if decide (anchor_type = "age_group")
     then random.choice "" AGE_GROUPS
     else random.choice "" INDIAN_STATES);
  passengers ←
    generate_passengers (Z.to_nat volume) anchor_type anchor_value
      selected_regions;
  mret (selected_regions,
        {| booking_id := i; volume := volume;
           price_per_seat := price_per_seat;
           anchor_type := str.title (str.replace "_" " " anchor_type);
           anchor_value := anchor_value;
           passengers := passengers |}).

(** The loop [for i in range(TOTAL_BOOKINGS_PER_GAME)], from [i] on for
    [n] iterations. *)
Fixpoint generate_from (i : Z) (n : nat)
  : random.Rand (list (list string * BookingRequest)) :=
  match n with
  | O => mret []
  | S n' =>
      b ← generate_booking i;
      bs ← generate_from (i + 1) n';
      mret (b :: bs)
  end.

(** [generate_bookings], each booking paired with its [selected_regions]. *)
Definition generate_bookings_with_regions
  : random.Rand (list (list string * BookingRequest)) :=
  generate_from 0 TOTAL_BOOKINGS_PER_GAME.

Definition generate_bookings : random.Rand (list BookingRequest) :=
  bs ← generate_bookings_with_regions;
  mret bs.*2.

End game_logic.

(** ** The runtime: rooms, connections, sockets, tasks and output

    Handlers run to completion: the interleaving of tasks at [await] points
    is not modelled. A [GameRoom] object is identified with its key in
    [game_manager]; the code modelled here never rebinds or removes a key. *)

Module runtime.
Import game_models.

(** A [WebSocket] object, by identity. *)
Definition WebSocket : Type := nat.

(** What [templates.get_template(name).render(context)] is given: the
    template and its context. *)
Inductive Html :=
| lobby_updater (players : list Player) (current_player_id : option string)
| booking_request (room : GameRoom) (booking : BookingRequest)
| host_view (room : GameRoom) (booking : BookingRequest)
| results (players : list Player) (is_host : bool) (host_name : string)
    (current_player_id : string) (game_room : GameRoom)
| waiting_for_decision (decision : string).

Inductive exn :=
| RuntimeError (msg : string)
| KeyError (key : string).

Inductive Output :=
| Sent (connection : WebSocket) (text : Html)
| Printed (line : string).

Record World := {
  game_manager : gmap string GameRoom;
  active_connections : gmap string (list (string * WebSocket));
  (** the sockets that are closed, each with the message of the
      [RuntimeError] its [send_text] raises *)
  closed : gmap WebSocket string;
  rng : random.Random;
  (** the [round_timer(room_id, round_number)] tasks created and not yet
      run, oldest first *)
  tasks : list (string * Z);
  output : list Output;
}.

Inductive result (A : Type) :=
| Ok (a : A)
| Raised (e : exn).
Arguments Ok {A} a.
Arguments Raised {A} e.

Definition IO (A : Type) : Type := World → result A * World.

Definition ret {A} (a : A) : IO A := λ w, (Ok a, w).

Definition bind {A B} (m : IO A) (k : A → IO B) : IO B :=
  λ w, match m w with
       | (Ok a, w') => k a w'
       | (Raised e, w') => (Raised e, w')
       end.

Definition raise {A} (e : exn) : IO A := λ w, (Raised e, w).

(** [try: m  except RuntimeError as e: handler(e)] *)
Definition try_except_RuntimeError {A} (m : IO A) (handler : string → IO A)
  : IO A :=
  λ w, match m w with
       | (Raised (RuntimeError msg), w') => handler msg w'
       | r => r
       end.

Definition get_world : IO World := λ w, (Ok w, w).

Definition emit (o : Output) : IO unit :=
  λ w, (Ok tt,
        {| game_manager := game_manager w;
           active_connections := active_connections w;
           closed := closed w; rng := rng w; tasks := tasks w;
           output := output w ++ [o] |}).

(** [await connection.send_text(text)] *)
Definition send_text (connection : WebSocket) (text : Html) : IO unit :=
  λ w, match closed w !! connection with
       | Some msg => (Raised (RuntimeError msg), w)
       | None => emit (Sent connection text) w
       end.

Definition print (line : string) : IO unit := emit (Printed line).

(** [asyncio.create_task(round_timer(room_id, round_number))] *)
Definition create_task (room_id : string) (round_number : Z) : IO unit :=
  λ w, (Ok tt,
        {| game_manager := game_manager w;
           active_connections := active_connections w;
           closed := closed w; rng := rng w;
           tasks := tasks w ++ [(room_id, round_number)];
           output := output w |}).

(** [game_room.method()] on the room object [game_manager[room_id]]: the
    method mutates the object and may consume randomness; the mutated
    object is returned. *)
Definition call_method (room_id : string) (game_room : GameRoom)
    (method : GameRoom → random.Rand GameRoom) : IO GameRoom :=
  λ w, let '(game_room', g) := method game_room (rng w) in
       (Ok game_room',
        {| game_manager := <[room_id := game_room']> (game_manager w);
           active_connections := active_connections w;
           closed := closed w; rng := g; tasks := tasks w;
           output := output w |}).

Definition set_active_connections
    (conns : gmap string (list (string * WebSocket))) : IO unit :=
  λ w, (Ok tt,
        {| game_manager := game_manager w; active_connections := conns;
           closed := closed w; rng := rng w; tasks := tasks w;
           output := output w |}).

(** [for x in xs: body(x)] *)
Fixpoint for_each {A} (xs : list A) (body : A → IO unit) : IO unit :=
  match xs with
  | [] => ret tt
  | x :: xs' => bind (body x) (λ _, for_each xs' body)
  end.

End runtime.

#[global] Instance IO_ret : MRet runtime.IO := @runtime.ret.
#[global] Instance IO_bind : MBind runtime.IO := λ A B k m, runtime.bind m k.

(** ** [connection_manager.py] *)

Module connection_manager.
Import runtime.

(** [websocket.accept()] has no effect on the modelled state. *)
Definition connect (websocket : WebSocket) (room_id player_id : string)
  : IO unit :=
  w ← get_world;
  let room := default [] (active_connections w !! room_id) in
  set_active_connections
    (<[room_id := room ++ [(player_id, websocket)]]> (active_connections w)).

(** [next(conn for conn in l if conn[1] is websocket)] followed by
    [l.remove(conn)]: the first pair that holds the socket goes. *)
Fixpoint remove_connection (websocket : WebSocket)
    (l : list (string * WebSocket)) : list (string * WebSocket) :=
  match l with
  | [] => []
  | conn :: l' =>
      if decide (conn.2 = websocket) then l'
      else conn :: remove_connection websocket l'
  end.

Definition disconnect (websocket : WebSocket) (room_id player_id : string)
  : IO unit :=
  w ← get_world;
  match active_connections w !! room_id with
  | Some l =>
      set_active_connections
        (<[room_id := remove_connection websocket l]> (active_connections w))
  | None => mret tt
  end.

Definition broadcast_html (room_id : string) (html_content : Html)
  : IO unit :=
  w ← get_world;
  match active_connections w !! room_id with
  | Some l =>
      for_each l (λ '(player_id, connection),
        try_except_RuntimeError
          (send_text connection html_content)
          (λ e, print ("Could not send to closed socket for player "
                       +:+ player_id +:+ ": " +:+ e)))
  | None => mret tt
  end.

Definition get_connections_in_room (room_id : string)
  : IO (list (string * WebSocket)) :=
  w ← get_world;
  mret (default [] (active_connections w !! room_id)).

End connection_manager.

(** ** [main.py]: the game-driving functions and the socket endpoint *)

Module main.
Import game_models runtime.

Definition start_new_round (room_id : string) : IO unit :=
  w ← get_world;
  match game_manager w !! room_id with
  | None => mret tt
  | Some game_room =>
      match get_current_booking game_room with
      | Some current_booking =>
          let host_id := host_id game_room in
          let player_html := booking_request game_room current_booking in
          let host_html := host_view game_room current_booking in
          conns ← connection_manager.get_connections_in_room room_id;
          for_each conns (λ '(player_id, connection),
            if decide (player_id = host_id)
            then send_text connection host_html
            else send_text connection player_html);;
          create_task room_id (current_round game_room)
      | None =>
          game_room ← call_method room_id game_room end_game;
          let host_player_id := host_id game_room in
          let actual_players :=
            filter (λ p, player_id p ≠ host_player_id)
              (odict.values (players game_room)) in
          conns ← connection_manager.get_connections_in_room room_id;
          for_each conns (λ '(player_id, connection),
            let is_player_host := bool_decide (player_id = host_player_id) in
            match odict.get (players game_room) host_player_id with
            | None => raise (KeyError host_player_id)
            | Some host =>
                send_text connection
                  (results actual_players is_player_host (name host)
                     player_id game_room)
            end)
      end
  end.

(** [round_timer], from the end of its [asyncio.sleep] on. *)
Definition round_timer (room_id : string) (round_number : Z) : IO unit :=
  w ← get_world;
  match game_manager w !! room_id with
  | Some game_room =>
      if decide (current_round game_room = round_number)
      then
        call_method room_id game_room advance_to_next_round;;
        start_new_round room_id
      else mret tt
  | None => mret tt
  end.

(** The event loop wakes the oldest sleeping [round_timer] task (all sleep
    for the same time). An exception ends that task only. *)
Definition run_next_task : IO unit :=
  λ w, match tasks w with
       | [] => (Ok tt, w)
       | (room_id, round_number) :: rest =>
           round_timer room_id round_number
             {| game_manager := game_manager w;
                active_connections := active_connections w;
                closed := closed w; rng := rng w; tasks := rest;
                output := output w |}
       end.

(** The locals of one run of [websocket_endpoint]. [game_room] tells
    whether [game_manager.get(room_id)] found the room when the socket
    connected; the local then refers to the object [game_manager[room_id]]. *)
Record Endpoint := {
  websocket : WebSocket;
  room_id : string;
  player_id : string;
  game_room : bool;
}.

(** [websocket_endpoint] up to its message loop. *)
Definition websocket_open (websocket : WebSocket)
    (room_id player_id : string) : IO Endpoint :=
  connection_manager.connect websocket room_id player_id;;
  w ← get_world;
  match game_manager w !! room_id with
  | Some game_room =>
      connection_manager.broadcast_html room_id
        (lobby_updater (odict.values (players game_room)) (Some player_id));;
      mret {| websocket := websocket; room_id := room_id;
              player_id := player_id; game_room := true |}
  | None =>
      mret {| websocket := websocket; room_id := room_id;
              player_id := player_id; game_room := false |}
  end.

(** [if game_room and action == expected: body(game_room)] *)
Definition when_action (ep : Endpoint) (action expected : string)
    (body : GameRoom → IO unit) : IO unit :=
  w ← get_world;
  match game_manager w !! room_id ep with
  | Some room =>
      if game_room ep && bool_decide (action = expected) then body room
      else mret tt
  | None => mret tt
  end.

(** One iteration of the message loop, for a message whose ["action"] is
    [action]. *)
Definition websocket_receive (ep : Endpoint) (action : string) : IO unit :=
  when_action ep action "start_game" (λ room,
    call_method (room_id ep) room (λ r, mret (start_game r));;
    start_new_round (room_id ep));;
  when_action ep action "accept_booking" (λ room,
    call_method (room_id ep) room
      (λ r, mret (player_accept_booking r (player_id ep)));;
    send_text (websocket ep) (waiting_for_decision "Accepted"));;
  when_action ep action "reject_booking" (λ room,
    send_text (websocket ep) (waiting_for_decision "Rejected")).

(** The [except WebSocketDisconnect] branch. *)
Definition websocket_close (ep : Endpoint) : IO unit :=
  connection_manager.disconnect (websocket ep) (room_id ep) (player_id ep);;
  w ← get_world;
  match game_manager w !! room_id ep with
  | Some room =>
      if game_room ep
      then connection_manager.broadcast_html (room_id ep)
             (lobby_updater (odict.values (players room)) None)
      else mret tt
  | None => mret tt
  end.

End main.

(** ** Concrete games, played through the functions above *)

Module scenario.
Import game_models runtime.

Definition traveller : Passenger :=
  {| profession := "Engineer"; sex := "Male"; age_group := "18-25";
     region := "Goa" |}.

(** A booking of [n] seats at 4000 a seat, anchored on the profession. *)
Definition block (i : Z) (n : nat) : BookingRequest :=
  {| booking_id := i; volume := Z.of_nat n; price_per_seat := 4000;
     anchor_type := "Profession"; anchor_value := "Engineer";
     passengers := replicate n traveller |}.

(** The room as [host_game] leaves it (room, host player, bookings), with
    one more player joined through [get_game_room]. *)
Definition lobby (bs : list BookingRequest) : GameRoom :=
  let room := add_player (new_GameRoom "a1b2c3" "host") "host" "Asha (Host)" in
  let room :=
    {| room_id := room_id room; host_id := host_id room;
       players := players room; bookings := bs;
       current_round := current_round room;
       game_status := game_status room |} in
  add_player room "p1" "Ravi".

(** Every passenger shows up, except those decided by the draws at
    positions 105 to 110. *)
Definition attendance : random.Random :=
  {| random.draws := λ n,
       if bool_decide (105 ≤ n ≤ 110)%nat then 0 else 2 ^ 52;
     random.cursor := 0 |}.

Definition world (bs : list BookingRequest) : World :=
  {| game_manager := {[ "a1b2c3" := lobby bs ]};
     active_connections := ∅; closed := ∅; rng := attendance;
     tasks := []; output := [] |}.

Definition host_ep : main.Endpoint :=
  {| main.websocket := 1%nat; main.room_id := "a1b2c3";
     main.player_id := "host"; main.game_room := true |}.

Definition p1_ep : main.Endpoint :=
  {| main.websocket := 2%nat; main.room_id := "a1b2c3";
     main.player_id := "p1"; main.game_room := true |}.

(** Both sockets connect, then the host starts the game. *)
Definition opening : IO unit :=
  main.websocket_open 1%nat "a1b2c3" "host";;
  main.websocket_open 2%nat "a1b2c3" "p1";;
  main.websocket_receive host_ep "start_game".

(** [n] rounds in which player p1 accepts before the timer fires. *)
Fixpoint accepted_rounds (n : nat) : IO unit :=
  match n with
  | O => mret tt
  | S n' =>
      main.websocket_receive p1_ep "accept_booking";; main.run_next_task;;
      accepted_rounds n'
  end.

(** [n] rounds in which nobody answers before the timer fires. *)
Fixpoint silent_rounds (n : nat) : IO unit :=
  match n with
  | O => mret tt
  | S n' => main.run_next_task;; silent_rounds n'
  end.

(** A one-booking game, just started. *)
Definition short_game : World := (opening (world [block 0 10])).2.

(** The room of the one-booking game, started. *)
Definition started : GameRoom := start_game (lobby [block 0 10]).


(** The one-booking game after its only round has timed out. *)
Definition finished_game : World := (main.run_next_task short_game).2.

(** A game of fifteen bookings of fifteen seats: p1 has accepted the first
    seven, nobody answered the next seven, and round 14, the last, is
    open with its timer pending. *)
Definition fifteen : list BookingRequest :=
  imap (λ i _, block (Z.of_nat i) 15) (replicate 15 tt).

Definition last_round : World :=
  ((opening;; accepted_rounds 7;; silent_rounds 7) (world fifteen)).2.

(** A player who has accepted the first seven of the fifteen bookings. *)
Definition keen : Player :=
  foldl (λ p b, accept b p) (new_Player "p1" "Ravi") (take 7 fifteen).

(** The room of a world. *)
Definition the_room (w : World) : option GameRoom :=
  game_manager w !! "a1b2c3".

(** A player of the room of a world. *)
Definition the_player (w : World) (pid : string) : option Player :=
  room ← the_room w; odict.get (players room) pid.

End scenario.

(** ** The show-up outcome of a scoring pass, read off the draws *)

Module scoring_spec.
Import game_models.

(** The generator [n] draws later. *)
Definition skip (n : nat) (g : random.Random) : random.Random :=
  {| random.draws := random.draws g; random.cursor := random.cursor g + n |}.

(** How many of the [n] passengers decided by the draws at positions
    [from], [from + 1], ... show up. *)
Fixpoint attending (draws : nat → Z) (from n : nat) : Z :=
  match n with
  | O => 0
  | S n' =>
      (if above_cancellation (draws from `mod` 2 ^ 53) then 1 else 0)
      + attending draws (S from) n'
  end.

(** The show-up count of each booking of a list scored from [g] on. *)
Fixpoint show_ups (bs : list BookingRequest) (g : random.Random) : list Z :=
  match bs with
  | [] => []
  | b :: bs' =>
      attending (random.draws g) (random.cursor g) (length (passengers b))
      :: show_ups bs' (skip (length (passengers b)) g)
  end.

Definition Zsum (l : list Z) : Z := foldr Z.add 0 l.

(** Show-ups times price, summed over the bookings. *)
Definition revenue (counts : list Z) (bs : list BookingRequest) : Z :=
  Zsum (zip_with (λ n b, n * price_per_seat b) counts bs).

(** The passengers of a list of bookings. *)
Definition seats (bs : list BookingRequest) : nat :=
  sum_list (length ∘ passengers <$> bs).

End scoring_spec.

(** ** What one delivery attempt of a broadcast leaves in the output *)

Module broadcast_spec.
Import runtime.


End broadcast_spec.

(** ** The regions of a generated booking *)

Module generator_spec.
Import game_models.

(** What holds of a booking [sb.2] generated with the pre-selected regions
    [sb.1]: three regions are pre-selected among the states; a booking
    anchored on the region has its anchor among all the states and every
    passenger from there; in any other booking every passenger's region is
    one of the pre-selected three. *)
Definition regions_bounded (sb : list string * BookingRequest) : Prop :=
  length sb.1 = (length game_logic.INDIAN_STATES `min` 3)%nat
  ∧ sb.1 ⊆ game_logic.INDIAN_STATES
  ∧ (anchor_type sb.2 = "Region" →
     anchor_value sb.2 ∈ game_logic.INDIAN_STATES
     ∧ Forall (λ p, region p = anchor_value sb.2) (passengers sb.2))
  ∧ (anchor_type sb.2 ≠ "Region" →
     Forall (λ p, region p ∈ sb.1) (passengers sb.2))
  ∧ ∃ rs : list string,
      (length rs ≤ 3)%nat ∧ Forall (λ p, region p ∈ rs) (passengers sb.2).

(** A generator whose first booking is anchored on the region (third
    draw), pre-selects the first three states (draws four to six) and
    takes the sixth state as anchor (seventh draw). *)
Definition goa_draws : random.Random :=
  {| random.draws := λ n,
       match n with
       | 2%nat => 3
       | 6%nat => 5
       | _ => 0
       end;
     random.cursor := 0 |}.

End generator_spec.

(** ** Helpers to state properties of whole sessions *)

Module session_spec.
Import game_models.

(** [advance_to_next_round] called [n] times in a row. *)
Fixpoint advance_times (n : nat) (self : GameRoom) : random.Rand GameRoom :=
  match n with
  | O => mret self
  | S n' => self' ← advance_to_next_round self; advance_times n' self'
  end.

(** The passengers of the bookings accepted by the players of a room, all
    players together. *)
Definition seats_held (ps : odict.t Player) : nat :=
  sum_list ((λ kp, scoring_spec.seats (accepted_bookings kp.2)) <$> ps).

End session_spec.

(** ** The shape of a generated booking *)

Module booking_spec.
Import game_models.

(** The [i]-th booking carries the id [i], a volume between 5 and 15, as
    many passengers as its volume, and a price per seat between 3000 and
    6000. *)
Definition sized (i : Z) (b : BookingRequest) : Prop :=
  booking_id b = i
  ∧ 5 ≤ volume b ≤ 15
  ∧ Z.of_nat (length (passengers b)) = volume b
  ∧ 3000 ≤ price_per_seat b ≤ 6000.

(** The booking is anchored on one of the four dimensions: the anchor value
    is a category of that dimension and every passenger has it. *)
Definition anchored (b : BookingRequest) : Prop :=
  (anchor_type b = "Profession"
   ∧ anchor_value b ∈ game_logic.PROFESSIONS
   ∧ Forall (λ p, profession p = anchor_value b) (passengers b))
  ∨ (anchor_type b = "Sex"
     ∧ anchor_value b ∈ game_logic.SEXES
     ∧ Forall (λ p, sex p = anchor_value b) (passengers b))
  ∨ (anchor_type b = "Age Group"
     ∧ anchor_value b ∈ game_logic.AGE_GROUPS
     ∧ Forall (λ p, age_group p = anchor_value b) (passengers b))
  ∨ (anchor_type b = "Region"
     ∧ anchor_value b ∈ game_logic.INDIAN_STATES
     ∧ Forall (λ p, region p = anchor_value b) (passengers b)).

(** Every attribute of every passenger is a category of its dimension. *)
Definition categorised (b : BookingRequest) : Prop :=
  Forall (λ p, profession p ∈ game_logic.PROFESSIONS
               ∧ sex p ∈ game_logic.SEXES
               ∧ age_group p ∈ game_logic.AGE_GROUPS
               ∧ region p ∈ game_logic.INDIAN_STATES) (passengers b).

End booking_spec.

(** ** Helpers to state what a handler leaves behind *)

Module world_spec.
Import game_models runtime.

(** The world with more output at the end. *)
Definition add_output (os : list Output) (w : World) : World :=
  {| game_manager := game_manager w;
     active_connections := active_connections w;
     closed := closed w; rng := rng w; tasks := tasks w;
     output := output w ++ os |}.

(** The world with one more pending timer. *)
Definition add_task (room_id : string) (round_number : Z) (w : World)
  : World :=
  {| game_manager := game_manager w;
     active_connections := active_connections w;
     closed := closed w; rng := rng w;
     tasks := tasks w ++ [(room_id, round_number)];
     output := output w |}.

(** The world with the room object updated and the generator moved on. *)
Definition set_room (room_id : string) (room : GameRoom) (g : random.Random)
    (w : World) : World :=
  {| game_manager := <[room_id := room]> (game_manager w);
     active_connections := active_connections w;
     closed := closed w; rng := g; tasks := tasks w;
     output := output w |}.

(** The connections registered for a room. *)
Definition connections (room_id : string) (w : World)
  : list (string * WebSocket) :=
  default [] (active_connections w !! room_id).

(** None of the sockets of the pairs is closed. *)
Definition all_open (w : World) (conns : list (string * WebSocket)) : Prop :=
  Forall (λ conn, closed w !! conn.2 = None) conns.

(** The views of a round, one per pair: the host view for the host's
    connections, the booking request for everybody else's. *)
Definition round_views (room : GameRoom) (b : BookingRequest)
    (conns : list (string * WebSocket)) : list Output :=
  (λ conn, Sent conn.2
             (if decide (conn.1 = host_id room) then host_view room b
              else booking_request room b)) <$> conns.

End world_spec.

(** ** A started game in which a player's socket has gone away *)

Module closed_socket.
Import game_models runtime.

(** The one-booking room, started, with the host connected on socket 1 and
    player p1 on socket 2; socket 2 is closed. *)
Definition stalled : World :=
  {| game_manager := {[ "a1b2c3" := scenario.started ]};
     active_connections :=
       {[ "a1b2c3" := [("host", 1%nat); ("p1", 2%nat)] ]};
     closed := {[ 2%nat := "socket closed" ]};
     rng := scenario.attendance; tasks := []; output := [] |}.

End closed_socket.

(** ** [main.py]: the helper and the endpoints that create rooms and players *)

Module http.
Import game_models runtime.

(** [any(p.name == nm for p in players)] *)
Definition name_taken (nm : string) (players : list Player) : bool :=
  bool_decide (nm ∈ name <$> players).

(** The f-string [f"{base_name}#{counter}"]. *)
Definition numbered (base_name : string) (counter : Z) : string :=
  base_name +:+ "#" +:+ pretty counter.

(** The [while True] loop of [get_unique_name], run for at most [fuel]
    iterations from [counter] on; [None] when the iterations are used up. *)
Fixpoint next_free_name (fuel : nat) (base_name : string)
    (players : list Player) (counter : Z) : option string :=
  match fuel with
  | O => None
  | S fuel' =>
      let new_name := numbered base_name counter in
      if name_taken new_name players
      then next_free_name fuel' base_name players (counter + 1)
      else Some new_name
  end.

Definition get_unique_name (fuel : nat) (base_name : string)
    (players : list Player) : option string :=
  if name_taken base_name players
  then next_free_name fuel base_name players 2
  else Some base_name.

(** [host_game], for the room id and the host id it has drawn with
    [secrets.token_hex] and [uuid.uuid4]. The redirect it answers with is
    not modelled. *)
Definition host_game (room_id host_id player_name : string) : IO unit :=
  λ w,
    let new_game_room := new_GameRoom room_id host_id in
    let new_game_room :=
      add_player new_game_room host_id (player_name +:+ " (Host)") in
    let '(bs, g) := game_logic.generate_bookings (rng w) in
    let new_game_room :=
      {| room_id := room_id; host_id := game_models.host_id new_game_room;
         players := players new_game_room; bookings := bs;
         current_round := current_round new_game_room;
         game_status := game_status new_game_room |} in
    (Ok tt,
     {| game_manager := <[room_id := new_game_room]> (game_manager w);
        active_connections := active_connections w;
        closed := closed w; rng := g; tasks := tasks w;
        output := output w |}).

(** [join_game]: the path it redirects to. *)
Definition join_game (room_id player_name : string) : IO string :=
  λ w,
    match game_manager w !! room_id with
    | Some _ => (Ok ("/game/" +:+ room_id +:+ "?name=" +:+ player_name), w)
    | None => (Ok "/", w)
    end.


End http.

(** ** [game_models.py]: the demographic split of a booking *)

Module collections.

(** A [Counter]: the counts by key, keys in the order of their first
    occurrence. *)
Definition Counter_add (c : odict.t Z) (x : string) : odict.t Z :=
  odict.set c x (default 0 (odict.get c x) + 1).

(** [Counter(iterable)] *)
Definition Counter (xs : list string) : odict.t Z :=
  foldl Counter_add [] xs.

(** [c[x]]: a missing key counts 0. *)
Definition count (c : odict.t Z) (x : string) : Z :=
  default 0 (odict.get c x).

End collections.

Module splits.
Import game_models.

Definition demographic_splits (self : BookingRequest)
  : odict.t (odict.t Z) :=
  [("Profession", collections.Counter (profession <$> passengers self));
   ("Sex", collections.Counter (sex <$> passengers self));
   ("Age Group", collections.Counter (age_group <$> passengers self));
   ("Region", collections.Counter (region <$> passengers self))].

(** The attribute of a passenger a dimension of the split is about. *)
Definition attribute_of (dimension : string) (p : Passenger) : string :=
  if decide (dimension = "Profession") then profession p
  else if decide (dimension = "Sex") then sex p
  else if decide (dimension = "Age Group") then age_group p
  else region p.

End splits.

(** * Properties *)

Import game_models.

(** ** Dictionaries *)

Section odict_facts.
Context {V : Type}.
Implicit Types (d : odict.t V) (k : string) (v : V).

Lemma odict_get_set_eq d k v : odict.get (odict.set d k v) k = Some v.
Proof.
  induction d as [|[k' v'] d IH]; simpl.
  - by rewrite decide_True.
  - destruct (decide (k' = k)) as [->|Hne]; simpl.
    + by rewrite decide_True.
    + by rewrite decide_False.
Qed.

Lemma odict_get_set_ne d k k' v :
  k ≠ k' → odict.get (odict.set d k v) k' = odict.get d k'.
Proof.
  intros Hne. induction d as [|[k0 v0] d IH]; simpl.
  - by rewrite decide_False.
  - destruct (decide (k0 = k)) as [->|Hk]; simpl.
    + by rewrite !decide_False.
    + by rewrite IH.
Qed.

Lemma odict_keys_set_present d k v :
  is_Some (odict.get d k) → odict.keys (odict.set d k v) = odict.keys d.
Proof.
  unfold odict.keys. induction d as [|[k0 v0] d IH]; simpl.
  - by intros [? ?].
  - destruct (decide (k0 = k)) as [->|Hk]; simpl; intros H; [done|].
    f_equal. by apply IH.
Qed.

End odict_facts.

(** ** The session state machine *)

(** C5 -- [get_current_booking] looks at [current_round] only: inside
    [0, len(bookings)) it returns the booking at that index, outside it
    returns none, and the status plays no part. *)
Theorem get_current_booking_by_round_only (self : GameRoom) :
  (0 ≤ current_round self ∧ current_round self < Z.of_nat (length (bookings self)) →
   ∃ b, bookings self !! Z.to_nat (current_round self) = Some b
        ∧ get_current_booking self = Some b)
  ∧ (Z.of_nat (length (bookings self)) ≤ current_round self →
     get_current_booking self = None)
  ∧ (current_round self < 0 → get_current_booking self = None)
  ∧ ∀ status,
      get_current_booking
        {| room_id := room_id self; host_id := host_id self;
           players := players self; bookings := bookings self;
           current_round := current_round self; game_status := status |}
      = get_current_booking self.
Proof.
  unfold get_current_booking. repeat split.
  - intros Hin. rewrite bool_decide_eq_true_2 by lia.
    destruct (lookup_lt_is_Some_2 (bookings self) (Z.to_nat (current_round self)))
      as [b Hb]; [lia|]. eauto.
  - intros Hout. rewrite bool_decide_eq_false_2; [done | lia].
  - intros Hneg. rewrite bool_decide_eq_false_2; [done | lia].
Qed.

Lemma get_current_booking_by_round_only_witness :
  ∃ b, bookings (scenario.lobby [scenario.block 0 10]) !! 0%nat = Some b
       ∧ get_current_booking (scenario.lobby [scenario.block 0 10]) = Some b.
Proof.
  destruct (get_current_booking_by_round_only
              (scenario.lobby [scenario.block 0 10])) as [Hin _].
  apply Hin. vm_compute. split; [by intros ? | done].
Defined.

(** C5, as stated, fails: a room that is still WAITING (round 0, one
    booking) has a current booking. *)
Lemma current_booking_while_waiting :
  game_status (scenario.lobby [scenario.block 0 10]) = "WAITING"
  ∧ get_current_booking (scenario.lobby [scenario.block 0 10])
    = Some (scenario.block 0 10).
Proof. by vm_compute. Qed.

(** C2 -- [start_game] has no guard: whatever the status, it sets the status
    to IN_PROGRESS and the round to 0 and leaves the other fields alone; it
    changes nothing exactly when the room is already IN_PROGRESS at round 0. *)
Theorem start_game_unconditional (self : GameRoom) :
  game_status (start_game self) = "IN_PROGRESS"
  ∧ current_round (start_game self) = 0
  ∧ room_id (start_game self) = room_id self
  ∧ host_id (start_game self) = host_id self
  ∧ players (start_game self) = players self
  ∧ bookings (start_game self) = bookings self
  ∧ (start_game self = self
     ↔ game_status self = "IN_PROGRESS" ∧ current_round self = 0).
Proof.
  do 6 (split; [done|]). split.
  - intros H. by rewrite <- H.
  - intros [Hs Hr]. destruct self; simpl in *; by subst.
Qed.

(** C2, as stated, fails: in the one-booking game that has run to its end
    (FINISHED, round 1), [start_game] puts the room back to IN_PROGRESS at
    round 0. *)
Lemma start_game_restarts_finished_room :
  ∃ room,
    scenario.the_room scenario.finished_game = Some room
    ∧ game_status room = "FINISHED" ∧ current_round room = 1
    ∧ start_game room ≠ room
    ∧ game_status (start_game room) = "IN_PROGRESS"
    ∧ current_round (start_game room) = 0.
Proof.
  eexists. split; [by vm_compute|].
  do 2 (split; [by vm_compute|]). split; [|by vm_compute].
  intros H. apply (f_equal current_round) in H. vm_compute in H.
  discriminate H.
Qed.




(** ** The scoring engine *)

Import scoring_spec.

Ltac run_rand :=
  unfold mbind, mret, Rand_bind, Rand_ret, random.bind, random.ret,
    random.random, random.next_draw; simpl.

Lemma skip_0 g : skip 0 g = g.
Proof. destruct g; unfold skip; simpl. f_equal. lia. Qed.

Lemma skip_skip n m g : skip m (skip n g) = skip (n + m) g.
Proof. unfold skip; simpl. f_equal. lia. Qed.

Lemma count_showed_up_spec (ps : list Passenger) (acc : Z) g :
  count_showed_up ps acc g
  = (acc + attending (random.draws g) (random.cursor g) (length ps),
     skip (length ps) g).
Proof.
  revert acc g. induction ps as [|p ps IH]; intros acc g; simpl.
  - rewrite skip_0. run_rand. f_equal. lia.
  - run_rand. rewrite IH. simpl. f_equal.
    + destruct (above_cancellation _); lia.
    + unfold skip; simpl. f_equal. lia.
Qed.

Lemma score_bookings_spec (bs : list BookingRequest) (t : Tally) g :
  let r := score_bookings bs t g in
  total_showed_up r.1 = total_showed_up t + Zsum (show_ups bs g)
  ∧ total_revenue r.1 = total_revenue t + revenue (show_ups bs g) bs
  ∧ r.2 = skip (seats bs) g.
Proof.
  revert t g. induction bs as [|b bs IH]; intros t g; simpl.
  - run_rand. rewrite skip_0. unfold revenue. simpl. repeat split; lia.
  - run_rand. rewrite count_showed_up_spec.
    destruct (IH {| total_showed_up :=
                      total_showed_up t
                      + (0 + attending (random.draws g) (random.cursor g)
                               (length (passengers b)));
                    total_revenue :=
                      total_revenue t
                      + (0 + attending (random.draws g) (random.cursor g)
                               (length (passengers b))) * price_per_seat b;
                    history :=
                      <[booking_id b :=
                          0 + attending (random.draws g) (random.cursor g)
                                (length (passengers b))]> (history t) |}
                (skip (length (passengers b)) g)) as (H1 & H2 & H3).
    simpl in *. rewrite H1, H2, H3. unfold revenue, seats. simpl.
    rewrite skip_skip. fold (seats bs). repeat split; try lia.
Qed.

(** C7 -- one scoring pass over a player whose penalty fields are zero: the
    revenue is the sum of show-ups times price over the accepted bookings,
    and with [S] the total of the show-ups, above 100 only the overbooking
    penalty (S - 100) * 6000 is charged, below 100 only the underbooking
    penalty (100 - S) * 3000, at 100 neither; the total score is the revenue
    minus both penalties. *)
Theorem calculate_final_score_spec (player : Player) (g : random.Random) :
  overbooking_penalty player = 0 →
  underbooking_penalty player = 0 →
  let counts := show_ups (accepted_bookings player) g in
  let S := Zsum counts in
  let scored := (calculate_final_score player g).1 in
  length counts = length (accepted_bookings player)
  ∧ final_revenue scored = revenue counts (accepted_bookings player)
  ∧ (S > 100 → overbooking_penalty scored = (S - 100) * 6000
               ∧ underbooking_penalty scored = 0)
  ∧ (S < 100 → underbooking_penalty scored = (100 - S) * 3000
               ∧ overbooking_penalty scored = 0)
  ∧ (S = 100 → overbooking_penalty scored = 0
               ∧ underbooking_penalty scored = 0)
  ∧ total_score scored
    = final_revenue scored - overbooking_penalty scored
      - underbooking_penalty scored.
Proof.
  intros Hover Hunder counts S scored.
  assert (Hlen : length counts = length (accepted_bookings player)).
  { subst counts. generalize g.
    induction (accepted_bookings player) as [|b bs IH]; intros g0; simpl;
      [done | by rewrite IH]. }
  destruct (score_bookings_spec (accepted_bookings player)
              {| total_showed_up := 0; total_revenue := 0;
                 history := show_up_history player |} g) as (H1 & H2 & _).
  simpl in H1, H2. fold counts in H1, H2. fold S in H1.
  subst scored. unfold calculate_final_score. run_rand.
  destruct (score_bookings _ _ g) as [t g'] eqn:Hrun. simpl in *.
  rewrite H1, H2, Hover, Hunder.
  unfold FLIGHT_CAPACITY, OVERBOOKING_PENALTY_PER_SEAT,
    UNDERBOOKING_PENALTY_PER_SEAT.
  split; [done|]. split; [lia|].
  repeat case_bool_decide; repeat split; intros; lia.
Qed.

Lemma calculate_final_score_spec_witness :
  let scored := (calculate_final_score scenario.keen scenario.attendance).1 in
  overbooking_penalty scenario.keen = 0
  ∧ underbooking_penalty scenario.keen = 0
  ∧ final_revenue scored = 105 * 4000
  ∧ overbooking_penalty scored = (105 - 100) * 6000
  ∧ underbooking_penalty scored = 0.
Proof.
  intros scored.
  destruct (calculate_final_score_spec scenario.keen scenario.attendance)
    as (_ & Hrevenue & Hover & _); [reflexivity | reflexivity |].
  split; [reflexivity|]. split; [reflexivity|].
  split; [etrans; [exact Hrevenue | by vm_compute]|].
  apply Hover. by vm_compute.
Defined.

(** C10 -- a player who has accepted nothing and whose penalty fields are
    zero is scored without a single draw, whatever the generator: revenue 0,
    no overbooking penalty, underbooking penalty 100 * 3000 = 300000, total
    score -300000. *)
Theorem nothing_accepted_scores_minus_300000 (player : Player)
    (g : random.Random) :
  accepted_bookings player = [] →
  overbooking_penalty player = 0 →
  underbooking_penalty player = 0 →
  let scored := (calculate_final_score player g).1 in
  (calculate_final_score player g).2 = g
  ∧ final_revenue scored = 0
  ∧ overbooking_penalty scored = 0
  ∧ underbooking_penalty scored = 100 * 3000
  ∧ total_score scored = -300000
  ∧ ∀ g', (calculate_final_score player g').1 = scored.
Proof.
  intros Hnone Hover Hunder. unfold calculate_final_score.
  rewrite Hnone, Hover, Hunder. run_rand. repeat split; by vm_compute.
Qed.

Lemma nothing_accepted_scores_minus_300000_witness :
  total_score
    (calculate_final_score (new_Player "p1" "Ravi") scenario.attendance).1
  = -300000.
Proof.
  destruct (nothing_accepted_scores_minus_300000
              (new_Player "p1" "Ravi") scenario.attendance)
    as (_ & _ & _ & _ & Htotal & _); [reflexivity..|].
  exact Htotal.
Defined.

(** ** Advancing a round *)

Lemma calculate_final_score_keeps (p : Player) g :
  player_id (calculate_final_score p g).1 = player_id p
  ∧ choice_history (calculate_final_score p g).1 = choice_history p
  ∧ accepted_bookings (calculate_final_score p g).1 = accepted_bookings p.
Proof.
  unfold calculate_final_score. run_rand.
  by destruct (score_bookings _ _ g).
Qed.

(** Scoring keeps every entry of the players dictionary in place, with its
    key, its player id and its choice history. *)
Lemma score_players_keeps (ps : odict.t Player) g :
  Forall2 (λ kp kp', kp'.1 = kp.1
                     ∧ player_id kp'.2 = player_id kp.2
                     ∧ choice_history kp'.2 = choice_history kp.2)
    ps (score_players ps g).1.
Proof.
  revert g. induction ps as [|[k p] ps IH]; intros g; simpl.
  - constructor.
  - run_rand.
    pose proof (calculate_final_score_keeps p g) as (Hid & Hch & _).
    destruct (calculate_final_score p g) as [p' g'].
    specialize (IH g'). destruct (score_players ps g') as [ps' g''].
    simpl in *. constructor; [by simpl | done].
Qed.

Lemma log_rejection_cases (hid : string) (b : BookingRequest) (p : Player) :
  player_id (log_rejection hid b p) = player_id p
  ∧ (player_id p ≠ hid → choice_history p !! booking_id b = None →
     choice_history (log_rejection hid b p)
     = <[booking_id b := "Rejected"]> (choice_history p))
  ∧ (is_Some (choice_history p !! booking_id b) →
     choice_history (log_rejection hid b p) = choice_history p)
  ∧ (player_id p = hid →
     choice_history (log_rejection hid b p) = choice_history p).
Proof.
  unfold log_rejection. case_bool_decide as Hcase; simpl.
  - destruct Hcase as [Hne Hnone]. repeat split; try done.
    intros [x Hx]. congruence.
  - repeat split; try done. intros Hne Hnone. by destruct Hcase.
Qed.

(** C6 -- when there is a current booking, [advance_to_next_round] keeps
    every player in place and writes "Rejected" under the booking's id for
    exactly the players that are not the host and have no decision for it;
    a player with a decision keeps the choice history, and so does the
    host. *)
Theorem advance_logs_rejections (self : GameRoom) (g : random.Random)
    (b : BookingRequest) :
  get_current_booking self = Some b →
  let self' := (advance_to_next_round self g).1 in
  host_id self' = host_id self
  ∧ length (players self') = length (players self)
  ∧ ∀ (i : nat) (k : string) (p : Player),
      players self !! i = Some (k, p) →
      ∃ p', players self' !! i = Some (k, p')
            ∧ player_id p' = player_id p
            ∧ (player_id p ≠ host_id self →
               choice_history p !! booking_id b = None →
               choice_history p'
               = <[booking_id b := "Rejected"]> (choice_history p))
            ∧ (is_Some (choice_history p !! booking_id b) →
               choice_history p' = choice_history p)
            ∧ (player_id p = host_id self →
               choice_history p' = choice_history p).
Proof.
  intros Hb self'.
  assert (Hin : current_round self < Z.of_nat (length (bookings self))).
  { unfold get_current_booking in Hb. case_bool_decide; [lia | done]. }
  set (logged := prod_map id (log_rejection (host_id self) b) <$> players self).
  assert (Hrel : host_id self' = host_id self
                 ∧ Forall2 (λ kp kp', kp'.1 = kp.1
                              ∧ player_id kp'.2 = player_id kp.2
                              ∧ choice_history kp'.2 = choice_history kp.2)
                     logged (players self')).
  { subst self'. unfold advance_to_next_round. rewrite Hb.
    rewrite bool_decide_eq_true_2 by done. fold logged.
    case_bool_decide; simpl.
    - unfold end_game. run_rand.
      pose proof (score_players_keeps logged g) as Hkeep.
      destruct (score_players logged g) as [ps g']. by simpl.
    - split; [done|]. apply Forall_Forall2_diag, Forall_forall. done. }
  destruct Hrel as [Hhost Hrel]. split; [done|].
  split.
  { rewrite <- (Forall2_length _ _ _ Hrel). subst logged.
    by rewrite length_fmap. }
  intros i k p Hi.
  assert (Hlogged : logged !! i = Some (k, log_rejection (host_id self) b p)).
  { subst logged. apply list_lookup_fmap_Some. by exists (k, p). }
  destruct (Forall2_lookup_l _ _ _ _ _ Hrel Hlogged)
    as ([k' p'] & Hp' & Hk & Hid & Hch).
  simpl in *. subst k'. exists p'. split; [done|].
  destruct (log_rejection_cases (host_id self) b p) as (Hid0 & H1 & H2 & H3).
  rewrite Hid, Hch. repeat split; done.
Qed.

Lemma advance_logs_rejections_witness :
  ∃ p',
    players (advance_to_next_round scenario.started scenario.attendance).1
      !! 1%nat = Some ("p1", p')
    ∧ choice_history p' = {[ 0 := "Rejected" ]}.
Proof.
  destruct (advance_logs_rejections scenario.started scenario.attendance
              (scenario.block 0 10)) as (_ & _ & Hplayers);
    [reflexivity|].
  destruct (Hplayers 1%nat "p1" (new_Player "p1" "Ravi"))
    as (p' & Hat & _ & Hrejected & _); [reflexivity|].
  exists p'. split; [exact Hat|].
  etrans; [apply Hrejected|]; by vm_compute.
Defined.

(** ** The broadcaster *)



(** One closed and one open connection: the open one is served, after the
    failure of the closed one has been printed. *)
Example broadcast_past_a_closed_socket :
  let w := {| runtime.game_manager := ∅;
              runtime.active_connections :=
                {[ "a1b2c3" := [("host", 1%nat); ("p1", 2%nat)] ]};
              runtime.closed := {[ 1%nat := "socket closed" ]};
              runtime.rng := scenario.attendance;
              runtime.tasks := []; runtime.output := [] |} in
  let text := runtime.waiting_for_decision "Accepted" in
  (connection_manager.broadcast_html "a1b2c3" text w).1 = runtime.Ok tt
  ∧ runtime.output (connection_manager.broadcast_html "a1b2c3" text w).2
    = [runtime.Printed
         "Could not send to closed socket for player host: socket closed";
       runtime.Sent 2%nat text].
Proof. by vm_compute. Qed.

(** ** The socket endpoint and the round timer *)

Lemma when_action_other (ep : main.Endpoint) (action expected : string)
    (body : GameRoom → runtime.IO unit) (w : runtime.World) :
  action ≠ expected →
  main.when_action ep action expected body w = (runtime.Ok tt, w).
Proof.
  intros Hne. unfold main.when_action.
  unfold mbind, IO_bind, runtime.bind, runtime.get_world. simpl.
  rewrite (bool_decide_eq_false_2 _ Hne), andb_false_r.
  by destruct (runtime.game_manager w !! main.room_id ep).
Qed.

Lemma skip_other_action {A} (ep : main.Endpoint) (action expected : string)
    (body : GameRoom → runtime.IO unit) (k : runtime.IO A)
    (w : runtime.World) :
  action ≠ expected →
  (main.when_action ep action expected body;; k) w = k w.
Proof.
  intros Hne. unfold mbind, IO_bind, runtime.bind.
  by rewrite when_action_other.
Qed.



(** When the timer of the last round fires, the room is scored by the
    [end_game] inside [advance_to_next_round] and then once more by the
    [end_game] of [start_new_round]. *)
Lemma round_timer_last_round_ends_game_twice (rid : string) (room : GameRoom)
    (w : runtime.World) :
  runtime.game_manager w !! rid = Some room →
  0 ≤ current_round room →
  current_round room + 1 = Z.of_nat (length (bookings room)) →
  let first := advance_to_next_round room (runtime.rng w) in
  let second := end_game first.1 first.2 in
  let w' := (main.round_timer rid (current_round room) w).2 in
  game_status first.1 = "FINISHED"
  ∧ runtime.game_manager w' !! rid = Some second.1
  ∧ runtime.rng w' = second.2.
Proof.
  intros Hroom Hlo Hlast first second w'.
  assert (Hfirst : game_status first.1 = "FINISHED"
                   ∧ get_current_booking first.1 = None).
  { subst first. unfold advance_to_next_round.
    rewrite bool_decide_eq_true_2 by lia. simpl.
    rewrite bool_decide_eq_true_2 by lia.
    unfold end_game. run_rand.
    destruct (score_players _ _) as [ps g']. simpl. split; [done|].
    unfold get_current_booking. simpl.
    rewrite bool_decide_eq_false_2; [done | lia]. }
  destruct Hfirst as [Hfinished Hnone]. split; [done|].
  subst w' second. unfold main.round_timer.
  unfold mbind, IO_bind, runtime.bind, runtime.get_world. simpl.
  rewrite Hroom. rewrite decide_True by done.
  unfold mbind, IO_bind, runtime.bind, runtime.call_method.
  fold first. destruct first as [r1 g1] eqn:Hrun. simpl in *.
  unfold main.start_new_round.
  unfold mbind, IO_bind, runtime.bind, runtime.get_world. simpl.
  rewrite lookup_insert_eq, Hnone.
  unfold mbind, IO_bind, runtime.bind, runtime.call_method. simpl.
  destruct (end_game r1 g1) as [r2 g2]. simpl.
  unfold mbind, IO_bind, runtime.bind,
    connection_manager.get_connections_in_room.
  unfold mbind, IO_bind, runtime.bind, runtime.get_world. simpl.
  unfold mret, IO_ret, runtime.ret. simpl.
  generalize (default [] (runtime.active_connections w !! rid)).
  intros conns.
  set (w2 := {| runtime.game_manager := _;  runtime.rng := g2 |}).
  assert (Hloop : ∀ body w0,
    (∀ c v, runtime.game_manager (body c v).2 = runtime.game_manager v
            ∧ runtime.rng (body c v).2 = runtime.rng v) →
    runtime.game_manager (runtime.for_each conns body w0).2
    = runtime.game_manager w0
    ∧ runtime.rng (runtime.for_each conns body w0).2 = runtime.rng w0).
  { intros body. induction conns as [|c conns IH]; intros w0 Hbody; simpl.
    - done.
    - unfold runtime.bind. pose proof (Hbody c w0) as [Hgm Hrng].
      destruct (body c w0) as [[[]|e] w1]; simpl in *.
      + destruct (IH w1 Hbody) as [IH1 IH2]. by rewrite IH1, IH2.
      + done. }
  match goal with |- context [runtime.for_each conns ?body w2] =>
    destruct (Hloop body w2) as [Hgm Hrng] end.
  { intros [pid c] v.
    destruct (odict.get (players r2) (host_id r2)); simpl; [|done].
    unfold runtime.send_text.
    by destruct (runtime.closed v !! c). }
  rewrite Hgm, Hrng. subst w2. simpl. by rewrite lookup_insert_eq.
Qed.

(** C1 -- the fifteen-booking game in its last round, p1 holding seven
    bookings of fifteen seats: when the round's timer fires, the room is
    FINISHED at round 15 and p1 has been scored twice. The pass made by
    [advance_to_next_round] takes 105 draws (105 show-ups: overbooked by 5);
    the pass made by [start_new_round] takes 105 more (99 show-ups:
    underbooked by 1) and overwrites the revenue, so p1 ends up with both
    penalties charged. *)
Theorem last_round_timer_scores_twice :
  let w := scenario.last_round in
  let w' := (main.run_next_task w).2 in
  ∃ before once_room once twice_room twice,
    scenario.the_room w = Some before
    ∧ current_round before = 14 ∧ game_status before = "IN_PROGRESS"
    ∧ random.cursor (runtime.rng w) = 0%nat
    (* the scoring pass inside advance_to_next_round *)
    ∧ once_room = (advance_to_next_round before (runtime.rng w)).1
    ∧ game_status once_room = "FINISHED" ∧ current_round once_room = 15
    ∧ random.cursor (advance_to_next_round before (runtime.rng w)).2
      = 105%nat
    ∧ odict.get (players once_room) "p1" = Some once
    ∧ (final_revenue once, overbooking_penalty once,
       underbooking_penalty once, total_score once)
      = (420000, 30000, 0, 390000)
    (* the room the timer leaves behind *)
    ∧ scenario.the_room w' = Some twice_room
    ∧ game_status twice_room = "FINISHED" ∧ current_round twice_room = 15
    ∧ random.cursor (runtime.rng w') = 210%nat
    ∧ odict.get (players twice_room) "p1" = Some twice
    ∧ (final_revenue twice, overbooking_penalty twice,
       underbooking_penalty twice, total_score twice)
      = (396000, 30000, 3000, 363000).
Proof.
  eexists _, _, _, _, _.
  split; [by vm_compute|]. do 3 (split; [by vm_compute|]).
  split; [done|]. do 3 (split; [by vm_compute|]).
  split; [by vm_compute|]. split; [by vm_compute|].
  split; [by vm_compute|]. do 3 (split; [by vm_compute|]).
  split; by vm_compute.
Qed.

(** ** The booking generator *)

Lemma choice_elem {A} (d : A) (seq : list A) g :
  seq ≠ [] → (random.choice d seq g).1 ∈ seq.
Proof.
  intros Hne. unfold random.choice, random.bind, random.next_draw,
    random.ret. simpl.
  assert (Hlen : 0 < Z.of_nat (length seq)) by (destruct seq; simpl; [done|lia]).
  pose proof (Z.mod_pos_bound (random.draws g (random.cursor g)) _ Hlen).
  destruct (lookup_lt_is_Some_2 seq
    (Z.to_nat (random.draws g (random.cursor g) `mod` Z.of_nat (length seq))))
    as [x Hx]; [lia|].
  rewrite Hx. simpl. by eapply list_elem_of_lookup_2.
Qed.

Lemma sample_spec {A} (population : list A) (k : nat) g :
  (k ≤ length population)%nat →
  length (random.sample population k g).1 = k
  ∧ (random.sample population k g).1 ⊆ population.
Proof.
  revert population g. induction k as [|k IH]; intros population g Hk; simpl.
  - split; [done|]. unfold random.ret. simpl. apply list_subseteq_nil.
  - unfold random.bind, random.next_draw. simpl.
    set (j := Z.to_nat _).
    assert (Hlen : 0 < Z.of_nat (length population)) by lia.
    pose proof (Z.mod_pos_bound (random.draws g (random.cursor g)) _ Hlen).
    destruct (lookup_lt_is_Some_2 population j) as [x Hx];
      [subst j; lia|].
    rewrite Hx.
    destruct (IH (delete j population)
                {| random.draws := random.draws g;
                   random.cursor := S (random.cursor g) |}) as [IH1 IH2].
    { rewrite length_delete by eauto. lia. }
    destruct (random.sample (delete j population) k _) as [xs g'].
    simpl in *. split; [by rewrite IH1|].
    intros y Hy. apply elem_of_cons in Hy as [->|Hy].
    + by eapply list_elem_of_lookup_2.
    + eapply sublist_subseteq; [apply sublist_delete|]. by apply IH2.
Qed.

Lemma attribute_spec (dimension anchor_type anchor_value : string)
    (pool : list string) g :
  let x := (game_logic.attribute dimension anchor_type anchor_value pool g).1 in
  (anchor_type = dimension → x = anchor_value)
  ∧ (anchor_type ≠ dimension → pool ≠ [] → x ∈ pool).
Proof.
  unfold game_logic.attribute. case_decide; simpl.
  - split; [done|]. intros Hne. by destruct Hne.
  - split; [done|]. intros _ Hpool. by apply choice_elem.
Qed.

Lemma generate_passengers_regions (volume : nat)
    (anchor_type anchor_value : string) (selected_regions : list string) g :
  let ps := (game_logic.generate_passengers volume anchor_type anchor_value
               selected_regions g).1 in
  (anchor_type = "region" → Forall (λ p, region p = anchor_value) ps)
  ∧ (anchor_type ≠ "region" → selected_regions ≠ [] →
     Forall (λ p, region p ∈ selected_regions) ps).
Proof.
  revert g. induction volume as [|volume IH]; intros g; simpl.
  - split; intros; constructor.
  - unfold mbind, Rand_bind, random.bind.
    destruct (game_logic.attribute "profession" _ _ _ g) as [pr g1].
    destruct (game_logic.attribute "sex" _ _ _ g1) as [sx g2].
    destruct (game_logic.attribute "age_group" _ _ _ g2) as [ag g3].
    pose proof (attribute_spec "region" anchor_type anchor_value
                  selected_regions g3) as [Hanchored Hfree].
    destruct (game_logic.attribute "region" _ _ _ g3) as [rg g4].
    destruct (IH g4) as [IH1 IH2].
    destruct (game_logic.generate_passengers volume _ _ _ g4) as [ps g5].
    simpl in *. split; intros; constructor; simpl; auto.
Qed.

Lemma generate_booking_regions (i : Z) g :
  generator_spec.regions_bounded (game_logic.generate_booking i g).1.
Proof.
  unfold game_logic.generate_booking, mbind, Rand_bind, random.bind.
  destruct (random.randint 5 15 g) as [volume g1].
  destruct (game_logic.price_draw g1) as [price g2].
  pose proof (choice_elem "" ["profession"; "sex"; "age_group"; "region"] g2)
    as Htype.
  destruct (random.choice "" _ g2) as [type g3]. simpl in Htype.
  pose proof (sample_spec game_logic.INDIAN_STATES
                (length game_logic.INDIAN_STATES `min` 3) g3) as [Hlen Hsub];
    [apply Nat.le_min_l|].
  destruct (random.sample _ _ g3) as [selected g4]. simpl in Hlen, Hsub.
  assert (Hne : selected ≠ []) by (intros ->; simpl in Hlen; done).
  assert (Hcases :
    ∀ value g5,
      (type = "region" → value ∈ game_logic.INDIAN_STATES) →
      generator_spec.regions_bounded
        (let '(ps, g6) :=
           game_logic.generate_passengers (Z.to_nat volume) type value
             selected g5 in
         random.ret
           (selected,
            {| booking_id := i; volume := volume; price_per_seat := price;
               anchor_type := str.title (str.replace "_" " " type);
               anchor_value := value; passengers := ps |}) g6).1).
  { intros value g5 Hvalue.
    pose proof (generate_passengers_regions (Z.to_nat volume) type value
                  selected g5) as [Hanchored Hfree].
    destruct (game_logic.generate_passengers _ _ _ _ g5) as [ps g6].
    unfold generator_spec.regions_bounded. simpl in *.
    split; [done|]. split; [done|].
    assert (Htitle : str.title (str.replace "_" " " type) = "Region"
                     ↔ type = "region").
    { assert (Hin : type ∈ ["profession"; "sex"; "age_group"; "region"])
        by (by apply Htype).
      repeat (apply elem_of_cons in Hin as [->|Hin]); [done..|].
      by apply elem_of_nil in Hin. }
    split; [intros Hregion; apply Htitle in Hregion; auto|].
    split; [intros Hother; apply Hfree; [|done]; intros ->;
            by apply Hother, Htitle|].
    destruct (decide (type = "region")) as [Hregion|Hother].
    - exists [value]. split; [simpl; lia|].
      eapply Forall_impl; [by apply Hanchored|].
      intros p ->. by apply list_elem_of_singleton.
    - exists selected. split; [by rewrite Hlen|].
      by apply Hfree. }
  repeat case_decide.
  - pose proof (choice_elem "" game_logic.PROFESSIONS g4 ltac:(done)).
    destruct (random.choice "" game_logic.PROFESSIONS g4) as [value g5].
    apply Hcases. by intros ->.
  - pose proof (choice_elem "" game_logic.SEXES g4 ltac:(done)).
    destruct (random.choice "" game_logic.SEXES g4) as [value g5].
    apply Hcases. by intros ->.
  - pose proof (choice_elem "" game_logic.AGE_GROUPS g4 ltac:(done)).
    destruct (random.choice "" game_logic.AGE_GROUPS g4) as [value g5].
    apply Hcases. by intros ->.
  - pose proof (choice_elem "" game_logic.INDIAN_STATES g4 ltac:(done)) as Hin.
    destruct (random.choice "" game_logic.INDIAN_STATES g4) as [value g5].
    apply Hcases. by intros _.
Qed.

Lemma generate_from_regions (i : Z) (n : nat) g :
  Forall generator_spec.regions_bounded (game_logic.generate_from i n g).1
  ∧ length (game_logic.generate_from i n g).1 = n.
Proof.
  revert i g. induction n as [|n IH]; intros i g; simpl.
  - split; [constructor | done].
  - unfold mbind, Rand_bind, random.bind.
    pose proof (generate_booking_regions i g) as Hb.
    destruct (game_logic.generate_booking i g) as [b g1].
    destruct (IH (i + 1) g1) as [IH1 IH2].
    destruct (game_logic.generate_from (i + 1) n g1) as [bs g2].
    simpl in *. split; [by constructor | by rewrite IH2].
Qed.



(** * Further properties of the code *)

(** ** [game_models.py]: the roster *)

Lemma odict_set_absent {V} (d : odict.t V) (k : string) (v : V) :
  odict.get d k = None → odict.set d k v = d ++ [(k, v)].
Proof.
  induction d as [|[k' v'] d IH]; simpl; [done|].
  case_decide; [done|]. intros Hnone. by rewrite IH.
Qed.



(** X2 -- keys of the players dictionary stay pairwise distinct under
    [add_player], so a player id names at most one record. *)
Theorem add_player_keeps_ids_distinct (self : GameRoom) (pid nm : string) :
  NoDup (odict.keys (players self)) →
  NoDup (odict.keys (players (add_player self pid nm))).
Proof.
  intros Hnodup. unfold add_player.
  destruct (odict.get (players self) pid) eqn:Hget; [done|]. simpl.
  rewrite odict_set_absent by done. unfold odict.keys in *.
  rewrite fmap_app. simpl. apply NoDup_app. split; [done|].
  split; [|apply NoDup_singleton].
  intros k Hk Hin. apply list_elem_of_singleton in Hin as ->.
  apply list_elem_of_fmap in Hk as ([k v] & Heq & Hkv). simpl in Heq. subst k.
  clear Hnodup. induction (players self) as [|[k0 v0] d IH]; simpl in *.
  - by apply elem_of_nil in Hkv.
  - case_decide; [done|]. apply elem_of_cons in Hkv as [Heq|Hkv].
    + by inversion Heq.
    + by apply IH.
Qed.

Lemma add_player_keeps_ids_distinct_witness :
  NoDup (odict.keys (players (add_player (scenario.lobby []) "p2" "Mira"))).
Proof.
  apply add_player_keeps_ids_distinct.
  apply (bool_decide_unpack _). by vm_compute.
Defined.

(** X3 -- [player_accept_booking] does nothing for a player id that is not
    in the room, and nothing when there is no current booking (the round is
    at or past the end of the bookings, as after the game). *)
Theorem accept_ignored (self : GameRoom) (pid : string) :
  odict.get (players self) pid = None
  ∨ Z.of_nat (length (bookings self)) ≤ current_round self →
  player_accept_booking self pid = self.
Proof.
  intros [Hunknown|Hover]; unfold player_accept_booking.
  - by rewrite Hunknown.
  - unfold get_current_booking. rewrite bool_decide_eq_false_2 by lia.
    by destruct (odict.get (players self) pid).
Qed.

Lemma accept_ignored_witness :
  player_accept_booking scenario.started "stranger" = scenario.started.
Proof. apply accept_ignored. left. by vm_compute. Defined.

(** ** [game_models.py]: the round counter *)

Lemma advance_round_bounds_aux (self : GameRoom) (g : random.Random) :
  let len := Z.of_nat (length (bookings self)) in
  let self' := (advance_to_next_round self g).1 in
  bookings self' = bookings self
  ∧ host_id self' = host_id self
  ∧ room_id self' = room_id self
  ∧ current_round self ≤ current_round self'
  ∧ current_round self' ≤ current_round self + 1
  ∧ (current_round self < len → current_round self' = current_round self + 1)
  ∧ (current_round self ≤ len → current_round self' ≤ len)
  ∧ (current_round self + 1 = len → game_status self' = "FINISHED")
  ∧ (current_round self + 1 ≠ len →
     game_status self' = game_status self
     ∧ (advance_to_next_round self g).2 = g).
Proof.
  intros len self'. subst len self'. unfold advance_to_next_round.
  case_bool_decide as Hlt; simpl.
  - case_bool_decide as Hlast; simpl.
    + unfold end_game. run_rand.
      destruct (score_players _ g) as [ps g']. simpl.
      repeat split; try done; try lia.
    + run_rand. repeat split; try done; try lia.
  - run_rand. repeat split; try done; try lia.
Qed.

(** X4 -- one call of [advance_to_next_round] moves the round by at most
    one and never back; from a round inside [0, len(bookings)] it stays
    inside; the bookings, the host and the room id are kept. The room becomes
    FINISHED exactly on the step that reaches len(bookings); on any other
    step the status is kept and no random draw is made. *)
Theorem advance_round_bounds (self : GameRoom) (g : random.Random) :
  let len := Z.of_nat (length (bookings self)) in
  let self' := (advance_to_next_round self g).1 in
  bookings self' = bookings self
  ∧ host_id self' = host_id self
  ∧ room_id self' = room_id self
  ∧ current_round self ≤ current_round self'
  ∧ current_round self' ≤ current_round self + 1
  ∧ (current_round self < len → current_round self' = current_round self + 1)
  ∧ (current_round self ≤ len → current_round self' ≤ len)
  ∧ (current_round self + 1 = len → game_status self' = "FINISHED")
  ∧ (current_round self + 1 ≠ len →
     game_status self' = game_status self
     ∧ (advance_to_next_round self g).2 = g).
Proof. apply advance_round_bounds_aux. Qed.

Lemma advance_past_end_is_noop_aux (self : GameRoom) (g : random.Random) :
  Z.of_nat (length (bookings self)) ≤ current_round self →
  advance_to_next_round self g = (self, g).
Proof.
  intros Hend. unfold advance_to_next_round, get_current_booking.
  rewrite !bool_decide_eq_false_2 by lia. run_rand. by destruct self.
Qed.

(** X5 -- called at or past the end of the bookings, [advance_to_next_round]
    is a no-op: the room is returned as it is and no random draw is made, so
    a finished game is neither advanced nor scored again by it. *)
Theorem advance_past_end_is_noop (self : GameRoom) (g : random.Random) :
  Z.of_nat (length (bookings self)) ≤ current_round self →
  advance_to_next_round self g = (self, g).
Proof. apply advance_past_end_is_noop_aux. Qed.

Lemma advance_past_end_is_noop_witness :
  ∃ room,
    scenario.the_room scenario.finished_game = Some room
    ∧ advance_to_next_round room scenario.attendance
      = (room, scenario.attendance).
Proof.
  eexists. split; [by vm_compute|].
  apply advance_past_end_is_noop. by vm_compute.
Defined.

Lemma advance_times_round (n : nat) (self : GameRoom) (g : random.Random) :
  0 ≤ current_round self ≤ Z.of_nat (length (bookings self)) →
  let self' := (session_spec.advance_times n self g).1 in
  bookings self' = bookings self
  ∧ current_round self'
    = Z.min (current_round self + Z.of_nat n)
        (Z.of_nat (length (bookings self)))
  ∧ (current_round self < Z.of_nat (length (bookings self))
     ≤ current_round self + Z.of_nat n →
     game_status self' = "FINISHED").
Proof.
  revert self g. induction n as [|n IH]; intros self g Hin; simpl.
  - run_rand. split; [done|]. split; lia.
  - unfold mbind, Rand_bind, random.bind.
    pose proof (advance_round_bounds_aux self g)
      as (Hb & _ & _ & Hle & Hle1 & Hstep & Hbound & Hfin & Hkeep).
    destruct (advance_to_next_round self g) as [r g1] eqn:Hadv.
    simpl in *.
    destruct (decide (current_round self
                      < Z.of_nat (length (bookings self)))) as [Hlt|Hge].
    + specialize (Hstep Hlt).
      destruct (IH r g1) as (IH1 & IH2 & IH3); [rewrite Hb; lia|].
      rewrite IH1, IH2, Hb, Hstep. split; [done|]. split; [lia|].
      intros Hreach.
      destruct (decide (current_round self + 1
                        = Z.of_nat (length (bookings self)))) as [Hlast|Hnot].
      * clear IH3.
        assert (Hpast : ∀ m r0 g0,
          Z.of_nat (length (bookings r0)) ≤ current_round r0 →
          session_spec.advance_times m r0 g0 = (r0, g0)).
        { clear. induction m as [|m IHm]; intros r0 g0 Hend; simpl; [done|].
          unfold mbind, Rand_bind, random.bind.
          rewrite advance_past_end_is_noop_aux by done. by apply IHm. }
        rewrite Hpast by (rewrite Hb; lia). simpl. by apply Hfin.
      * apply IH3. rewrite Hb. lia.
    + assert (Hsame : advance_to_next_round self g = (self, g))
        by (apply advance_past_end_is_noop_aux; lia).
      rewrite Hadv in Hsame. inversion Hsame; subst r g1.
      destruct (IH self g) as (IH1 & IH2 & IH3); [lia|].
      rewrite IH1, IH2. split; [done|]. split; lia.
Qed.

(** X6 -- a game that stands at round 0 with at least one booking: after
    [n] calls of [advance_to_next_round] the round is min(n, len(bookings)),
    and once [n] reaches len(bookings) the game is FINISHED and stays so. *)
Theorem advance_times_finishes (n : nat) (self : GameRoom)
    (g : random.Random) :
  current_round self = 0 →
  bookings self ≠ [] →
  let self' := (session_spec.advance_times n self g).1 in
  current_round self' = Z.min (Z.of_nat n) (Z.of_nat (length (bookings self)))
  ∧ ((length (bookings self) ≤ n)%nat → game_status self' = "FINISHED").
Proof.
  intros Hzero Hsome self'.
  destruct (advance_times_round n self g) as (_ & H2 & H3); [lia|].
  fold self' in H2, H3. split.
  - rewrite H2. lia.
  - intros Hn. apply H3.
    assert (0 < length (bookings self))%nat
      by (destruct (bookings self); simpl; [done|lia]).
    lia.
Qed.

Lemma advance_times_finishes_witness :
  let self' :=
    (session_spec.advance_times 15
       (start_game (scenario.lobby scenario.fifteen))
       scenario.attendance).1 in
  current_round self' = 15 ∧ game_status self' = "FINISHED".
Proof.
  intros self'.
  destruct (advance_times_finishes 15
              (start_game (scenario.lobby scenario.fifteen))
              scenario.attendance) as [Hround Hdone];
    [reflexivity | by vm_compute |].
  split; [exact Hround | apply Hdone; by vm_compute].
Defined.

(** ** [game_models.py]: what a scoring pass reads and writes *)

Lemma attending_bounds (draws : nat → Z) (from n : nat) :
  0 ≤ attending draws from n ≤ Z.of_nat n.
Proof.
  revert from. induction n as [|n IH]; intros from; simpl; [lia|].
  specialize (IH (S from)). destruct (above_cancellation _); lia.
Qed.

Lemma show_ups_bounds (bs : list BookingRequest) g :
  Forall2 (λ n b, 0 ≤ n ≤ Z.of_nat (length (passengers b))) (show_ups bs g) bs.
Proof.
  revert g. induction bs as [|b bs IH]; intros g; simpl; constructor.
  - apply attending_bounds.
  - apply IH.
Qed.

Lemma revenue_bounds (counts : list Z) (bs : list BookingRequest) :
  Forall2 (λ n b, 0 ≤ n ≤ Z.of_nat (length (passengers b))) counts bs →
  Forall (λ b, 0 ≤ price_per_seat b) bs →
  0 ≤ revenue counts bs
  ≤ Zsum ((λ b, Z.of_nat (length (passengers b)) * price_per_seat b) <$> bs).
Proof.
  unfold revenue. induction 1 as [|n b counts bs Hn Hrest IH]; simpl.
  - lia.
  - intros Hprices. apply Forall_cons in Hprices as [Hp Hprices].
    specialize (IH Hprices). unfold Zsum in *.
    pose proof (Z.mul_nonneg_nonneg n (price_per_seat b)).
    pose proof (Z.mul_le_mono_nonneg_r n (Z.of_nat (length (passengers b)))
                  (price_per_seat b)).
    unfold fmap in *. lia.
Qed.

Lemma scoring_pass_draws_and_revenue_aux (player : Player) (g : random.Random) :
  (calculate_final_score player g).2 = skip (seats (accepted_bookings player)) g
  ∧ (Forall (λ b, 0 ≤ price_per_seat b) (accepted_bookings player) →
     0 ≤ final_revenue (calculate_final_score player g).1
     ≤ Zsum ((λ b, Z.of_nat (length (passengers b)) * price_per_seat b)
             <$> accepted_bookings player)).
Proof.
  destruct (score_bookings_spec (accepted_bookings player)
              {| total_showed_up := 0; total_revenue := 0;
                 history := show_up_history player |} g) as (_ & H2 & H3).
  unfold calculate_final_score. run_rand.
  destruct (score_bookings _ _ g) as [t g']. simpl in *.
  split; [done|]. intros Hprices. rewrite H2.
  pose proof (revenue_bounds _ _ (show_ups_bounds (accepted_bookings player) g)
                Hprices). lia.
Qed.

(** X7 -- a scoring pass draws one random number per passenger of the
    player's accepted bookings, no more and no less; and when no accepted
    booking has a negative price, the revenue it writes lies between 0 and
    the revenue of a flight on which everybody shows up. *)
Theorem scoring_pass_draws_and_revenue (player : Player) (g : random.Random) :
  (calculate_final_score player g).2 = skip (seats (accepted_bookings player)) g
  ∧ (Forall (λ b, 0 ≤ price_per_seat b) (accepted_bookings player) →
     0 ≤ final_revenue (calculate_final_score player g).1
     ≤ Zsum ((λ b, Z.of_nat (length (passengers b)) * price_per_seat b)
             <$> accepted_bookings player)).
Proof. apply scoring_pass_draws_and_revenue_aux. Qed.

Lemma scoring_pass_draws_and_revenue_witness :
  random.cursor (calculate_final_score scenario.keen scenario.attendance).2
  = 105%nat
  ∧ 0 ≤ final_revenue
          (calculate_final_score scenario.keen scenario.attendance).1
      ≤ 420000.
Proof.
  destruct (scoring_pass_draws_and_revenue scenario.keen scenario.attendance)
    as [Hdraws Hrevenue].
  split; [by rewrite Hdraws|].
  apply Hrevenue. apply (bool_decide_unpack _). by vm_compute.
Defined.

Lemma score_bookings_history (bs : list BookingRequest) (t : Tally) g (i : Z) :
  let h := history (score_bookings bs t g).1 in
  (i ∉ booking_id <$> bs → h !! i = history t !! i)
  ∧ (i ∈ booking_id <$> bs →
     ∃ n b, b ∈ bs ∧ booking_id b = i ∧ h !! i = Some n
            ∧ 0 ≤ n ≤ Z.of_nat (length (passengers b))).
Proof.
  revert t g. induction bs as [|b bs IH]; intros t g; simpl.
  - run_rand. split; [done|]. intros Hin. by apply elem_of_nil in Hin.
  - run_rand. rewrite count_showed_up_spec.
    set (n0 := 0 + attending _ _ _).
    assert (Hn0 : 0 ≤ n0 ≤ Z.of_nat (length (passengers b))).
    { subst n0. pose proof (attending_bounds (random.draws g)
        (random.cursor g) (length (passengers b))). lia. }
    match goal with |- context [score_bookings bs ?t' ?g'] =>
      destruct (IH t' g') as [IHout IHin] end.
    simpl in *. split.
    + intros Hout. apply not_elem_of_cons in Hout as [Hne Hout].
      rewrite IHout by done. by rewrite lookup_insert_ne.
    + intros Hin.
      destruct (decide (i ∈ booking_id <$> bs)) as [Hrest|Hrest].
      * destruct (IHin Hrest) as (n & b' & Hb' & Hid & Hlook & Hn).
        exists n, b'. split; [by apply elem_of_cons; right|]. done.
      * apply elem_of_cons in Hin as [->|Hin]; [|done].
        exists n0, b. split; [by apply elem_of_cons; left|].
        split; [done|]. split; [|done].
        rewrite IHout by done. apply lookup_insert_eq.
Qed.

(** X8 -- after a scoring pass [show_up_history] has an entry under the id
    of every accepted booking, a count between 0 and the number of
    passengers of an accepted booking with that id; the entries under all
    other ids are the ones the player had before. *)
Theorem scoring_pass_show_up_history (player : Player) (g : random.Random)
    (i : Z) :
  let h := show_up_history (calculate_final_score player g).1 in
  (i ∉ booking_id <$> accepted_bookings player →
   h !! i = show_up_history player !! i)
  ∧ (i ∈ booking_id <$> accepted_bookings player →
     ∃ n b, b ∈ accepted_bookings player ∧ booking_id b = i
            ∧ h !! i = Some n
            ∧ 0 ≤ n ≤ Z.of_nat (length (passengers b))).
Proof.
  pose proof (score_bookings_history (accepted_bookings player)
                {| total_showed_up := 0; total_revenue := 0;
                   history := show_up_history player |} g i) as H.
  unfold calculate_final_score. run_rand.
  by destruct (score_bookings _ _ g) as [t g'].
Qed.

Lemma scoring_pass_show_up_history_witness :
  ∃ n,
    show_up_history
      (calculate_final_score scenario.keen scenario.attendance).1 !! 3
    = Some n
    ∧ 0 ≤ n ≤ 15.
Proof.
  destruct (scoring_pass_show_up_history scenario.keen scenario.attendance 3)
    as [_ Hin].
  destruct Hin as (n & b & Hb & Hid & Hlook & Hn).
  { apply (bool_decide_unpack _). by vm_compute. }
  exists n. split; [exact Hlook|].
  assert (Hlen : length (passengers b) = 15%nat).
  { revert Hb. clear. intros Hb.
    repeat (apply elem_of_cons in Hb as [->|Hb]; [done|]).
    by apply elem_of_nil in Hb. }
  rewrite Hlen in Hn. exact Hn.
Defined.

(** X9 -- a scoring pass never clears a penalty: with [S] the show-ups of
    the pass, the overbooking penalty is written only when S > 100 and the
    underbooking penalty only when S < 100; the other one keeps whatever
    value the player had, and the total score is computed from the two
    values as they then stand. *)
Theorem scoring_pass_keeps_stale_penalty (player : Player)
    (g : random.Random) :
  let S := Zsum (show_ups (accepted_bookings player) g) in
  let scored := (calculate_final_score player g).1 in
  (S ≤ 100 → overbooking_penalty scored = overbooking_penalty player)
  ∧ (100 ≤ S → underbooking_penalty scored = underbooking_penalty player)
  ∧ (100 < S → overbooking_penalty scored = (S - 100) * 6000)
  ∧ (S < 100 → underbooking_penalty scored = (100 - S) * 3000)
  ∧ total_score scored
    = final_revenue scored - overbooking_penalty scored
      - underbooking_penalty scored.
Proof.
  intros S scored.
  destruct (score_bookings_spec (accepted_bookings player)
              {| total_showed_up := 0; total_revenue := 0;
                 history := show_up_history player |} g) as (H1 & _ & _).
  simpl in H1. fold S in H1.
  subst scored. unfold calculate_final_score. run_rand.
  destruct (score_bookings _ _ g) as [t g']. simpl in *. rewrite H1.
  unfold FLIGHT_CAPACITY, OVERBOOKING_PENALTY_PER_SEAT,
    UNDERBOOKING_PENALTY_PER_SEAT.
  repeat case_bool_decide; repeat split; intros; try done; lia.
Qed.

Lemma scoring_pass_keeps_stale_penalty_witness :
  let once := (calculate_final_score scenario.keen scenario.attendance).1 in
  let again :=
    (calculate_final_score once
       (skip 105 scenario.attendance)).1 in
  overbooking_penalty again = overbooking_penalty once
  ∧ overbooking_penalty once = 30000.
Proof.
  intros once again.
  destruct (scoring_pass_keeps_stale_penalty once
              (skip 105 scenario.attendance)) as (Hstale & _).
  split; [apply Hstale; by vm_compute | by vm_compute].
Defined.

(** ** [game_models.py]: ending the game *)

Lemma score_players_draws (ps : odict.t Player) g :
  (score_players ps g).2 = skip (session_spec.seats_held ps) g
  ∧ odict.keys (score_players ps g).1 = odict.keys ps.
Proof.
  unfold odict.keys, session_spec.seats_held.
  revert g. induction ps as [|[k p] ps IH]; intros g; simpl.
  - run_rand. by rewrite skip_0.
  - run_rand.
    pose proof (scoring_pass_draws_and_revenue_aux p g) as [Hdraws _].
    destruct (calculate_final_score p g) as [p' g1]. simpl in Hdraws.
    destruct (IH g1) as [IH1 IH2].
    destruct (score_players ps g1) as [ps' g2]. simpl in *.
    subst g1 g2. split; [by rewrite skip_skip | by f_equal].
Qed.

Lemma score_players_by_key (ps : odict.t Player) g (k : string) (p : Player) :
  odict.get ps k = Some p →
  ∃ g', odict.get (score_players ps g).1 k
        = Some (calculate_final_score p g').1.
Proof.
  revert g. induction ps as [|[k0 p0] ps IH]; intros g; simpl; [done|].
  run_rand. destruct (calculate_final_score p0 g) as [p0' g1] eqn:Hp0.
  specialize (IH g1). destruct (score_players ps g1) as [ps' g2]. simpl in *.
  case_decide.
  - intros [= ->]. exists g. by rewrite Hp0.
  - done.
Qed.

(** X10 -- [end_game] sets the status to FINISHED, keeps the round, the
    bookings, the host and the players' ids in their order, and draws one
    random number for every passenger of every booking accepted by any player
    of the room. *)
Theorem end_game_scores_everybody (self : GameRoom) (g : random.Random) :
  let self' := (end_game self g).1 in
  game_status self' = "FINISHED"
  ∧ current_round self' = current_round self
  ∧ bookings self' = bookings self
  ∧ host_id self' = host_id self
  ∧ odict.keys (players self') = odict.keys (players self)
  ∧ (end_game self g).2 = skip (session_spec.seats_held (players self)) g
  ∧ ∀ k p, odict.get (players self) k = Some p →
      ∃ g', odict.get (players self') k = Some (calculate_final_score p g').1.
Proof.
  unfold end_game. run_rand.
  pose proof (score_players_draws (players self) g) as [Hdraws Hkeys].
  pose proof (score_players_by_key (players self) g) as Hkey.
  destruct (score_players (players self) g) as [ps g']. simpl in *.
  repeat split; done.
Qed.

(** ** [game_models.py]: a decision and the end of its round *)

Lemma odict_get_fmap {V} (f : V → V) (d : odict.t V) (k : string) :
  odict.get (prod_map id f <$> d) k = f <$> odict.get d k.
Proof.
  induction d as [|[k0 v0] d IH]; simpl; [done|]. by case_decide.
Qed.

Lemma advance_by_key (self : GameRoom) g (b : BookingRequest) (k : string)
    (p : Player) :
  get_current_booking self = Some b →
  odict.get (players self) k = Some p →
  ∃ p', odict.get (players (advance_to_next_round self g).1) k = Some p'
        ∧ accepted_bookings p' = accepted_bookings p
        ∧ choice_history p'
          = choice_history (log_rejection (host_id self) b p).
Proof.
  intros Hb Hp.
  assert (Hin : current_round self < Z.of_nat (length (bookings self))).
  { unfold get_current_booking in Hb. case_bool_decide; [lia | done]. }
  assert (Hlogged :
    odict.get (prod_map id (log_rejection (host_id self) b) <$> players self) k
    = Some (log_rejection (host_id self) b p)).
  { by rewrite odict_get_fmap, Hp. }
  assert (Hacc : accepted_bookings (log_rejection (host_id self) b p)
                 = accepted_bookings p).
  { unfold log_rejection. by case_bool_decide. }
  unfold advance_to_next_round. rewrite Hb.
  rewrite bool_decide_eq_true_2 by done. case_bool_decide; simpl.
  - unfold end_game. run_rand.
    destruct (score_players_by_key _ g k _ Hlogged) as [g' Hscored].
    destruct (score_players _ g) as [ps g'']. simpl in *.
    eexists. split; [exact Hscored|].
    destruct (calculate_final_score_keeps
                (log_rejection (host_id self) b p) g') as (_ & Hch & Hab).
    by rewrite Hab, Hch.
  - run_rand. eexists. split; [exact Hlogged|]. done.
Qed.

(** X11 -- a booking accepted by a player of the room stays accepted when
    the round is then advanced, also when that advance ends the game: the
    player's [choice_history] says "Accepted" for the booking, the timeout
    does not turn it into "Rejected", and the booking is the last of the
    player's accepted bookings. *)
Theorem accept_survives_advance (self : GameRoom) (g : random.Random)
    (pid : string) (p : Player) (b : BookingRequest) :
  odict.get (players self) pid = Some p →
  get_current_booking self = Some b →
  ∃ p',
    odict.get
      (players (advance_to_next_round (player_accept_booking self pid) g).1)
      pid = Some p'
    ∧ choice_history p' !! booking_id b = Some "Accepted"
    ∧ accepted_bookings p' = accepted_bookings p ++ [b].
Proof.
  intros Hp Hb.
  assert (Hb' : get_current_booking (player_accept_booking self pid) = Some b).
  { unfold player_accept_booking. by rewrite Hp, Hb. }
  assert (Hp' : odict.get (players (player_accept_booking self pid)) pid
                = Some (accept b p)).
  { unfold player_accept_booking. rewrite Hp, Hb. apply odict_get_set_eq. }
  destruct (advance_by_key _ g b pid _ Hb' Hp') as (p' & Hget & Hacc & Hch).
  exists p'. split; [done|]. split; [|done].
  rewrite Hch. unfold log_rejection.
  case_bool_decide as Hcase; simpl; [|apply lookup_insert_eq].
  destruct Hcase as [_ Hnone]. simpl in Hnone.
  by rewrite lookup_insert_eq in Hnone.
Qed.

Lemma accept_survives_advance_witness :
  ∃ p',
    odict.get
      (players (advance_to_next_round
                  (player_accept_booking scenario.started "p1")
                  scenario.attendance).1) "p1" = Some p'
    ∧ choice_history p' !! 0 = Some "Accepted".
Proof.
  destruct (accept_survives_advance scenario.started scenario.attendance
              "p1" (new_Player "p1" "Ravi") (scenario.block 0 10))
    as (p' & Hget & Hchoice & _); [reflexivity | reflexivity |].
  exists p'. split; [exact Hget | exact Hchoice].
Defined.

(** ** [game_logic.py]: the shape of the generated bookings *)

Lemma generate_passengers_spec (volume : nat)
    (anchor_type anchor_value : string) (selected_regions : list string) g :
  let ps := (game_logic.generate_passengers volume anchor_type anchor_value
               selected_regions g).1 in
  length ps = volume
  ∧ Forall (λ p,
      (anchor_type = "profession" → profession p = anchor_value)
      ∧ (anchor_type ≠ "profession" → profession p ∈ game_logic.PROFESSIONS)
      ∧ (anchor_type = "sex" → sex p = anchor_value)
      ∧ (anchor_type ≠ "sex" → sex p ∈ game_logic.SEXES)
      ∧ (anchor_type = "age_group" → age_group p = anchor_value)
      ∧ (anchor_type ≠ "age_group" → age_group p ∈ game_logic.AGE_GROUPS)
      ∧ (anchor_type = "region" → region p = anchor_value)
      ∧ (anchor_type ≠ "region" → selected_regions ≠ [] →
         region p ∈ selected_regions)) ps.
Proof.
  revert g. induction volume as [|volume IH]; intros g; simpl.
  - split; [done | constructor].
  - unfold mbind, Rand_bind, random.bind.
    pose proof (attribute_spec "profession" anchor_type anchor_value
                  game_logic.PROFESSIONS g) as [Hp1 Hp2].
    destruct (game_logic.attribute "profession" _ _ _ g) as [pr g1].
    pose proof (attribute_spec "sex" anchor_type anchor_value
                  game_logic.SEXES g1) as [Hs1 Hs2].
    destruct (game_logic.attribute "sex" _ _ _ g1) as [sx g2].
    pose proof (attribute_spec "age_group" anchor_type anchor_value
                  game_logic.AGE_GROUPS g2) as [Ha1 Ha2].
    destruct (game_logic.attribute "age_group" _ _ _ g2) as [ag g3].
    pose proof (attribute_spec "region" anchor_type anchor_value
                  selected_regions g3) as [Hr1 Hr2].
    destruct (game_logic.attribute "region" _ _ _ g3) as [rg g4].
    destruct (IH g4) as [IH1 IH2].
    destruct (game_logic.generate_passengers volume _ _ _ g4) as [ps g5].
    simpl in *. split; [by rewrite IH1|].
    constructor; [|done]. simpl.
    repeat split; auto.
Qed.

Lemma generate_booking_shape (i : Z) g :
  booking_spec.sized i (game_logic.generate_booking i g).1.2
  ∧ booking_spec.anchored (game_logic.generate_booking i g).1.2
  ∧ booking_spec.categorised (game_logic.generate_booking i g).1.2.
Proof.
  unfold game_logic.generate_booking, mbind, Rand_bind, random.bind.
  assert (Hvol : 5 ≤ (random.randint 5 15 g).1 ≤ 15).
  { unfold random.randint, random.bind, random.next_draw, random.ret.
    cbn [fst]. change (15 - 5 + 1) with 11.
    pose proof (Z.mod_pos_bound (random.draws g (random.cursor g)) 11
                  ltac:(lia)). lia. }
  destruct (random.randint 5 15 g) as [volume g1]. simpl in Hvol.
  assert (Hprice : 3000 ≤ (game_logic.price_draw g1).1 ≤ 6000).
  { unfold game_logic.price_draw. run_rand.
    pose proof (Z.mod_pos_bound (random.draws g1 (random.cursor g1))
                  (2 ^ 53)) as Hk.
    set (k := _ `mod` _) in *.
    specialize (Hk ltac:(lia)).
    assert (0 ≤ (3000 * k) `div` 2 ^ 53 < 3000).
    { split; [apply Z.div_pos; lia|].
      apply Z.div_lt_upper_bound; lia. }
    lia. }
  destruct (game_logic.price_draw g1) as [price g2]. simpl in Hprice.
  pose proof (choice_elem "" ["profession"; "sex"; "age_group"; "region"] g2
                ltac:(done)) as Htype.
  destruct (random.choice "" _ g2) as [type g3]. simpl in Htype.
  pose proof (sample_spec game_logic.INDIAN_STATES
                (length game_logic.INDIAN_STATES `min` 3) g3) as [Hlen Hsub];
    [apply Nat.le_min_l|].
  destruct (random.sample _ _ g3) as [selected g4]. simpl in Hlen, Hsub.
  assert (Hne : selected ≠ []) by (intros ->; simpl in Hlen; done).
  assert (Hcases :
    ∀ value g5,
      (type = "profession" → value ∈ game_logic.PROFESSIONS) →
      (type = "sex" → value ∈ game_logic.SEXES) →
      (type = "age_group" → value ∈ game_logic.AGE_GROUPS) →
      (type = "region" → value ∈ game_logic.INDIAN_STATES) →
      let b :=
        (let '(ps, g6) :=
           game_logic.generate_passengers (Z.to_nat volume) type value
             selected g5 in
         random.ret
           (selected,
            {| booking_id := i; volume := volume; price_per_seat := price;
               anchor_type := str.title (str.replace "_" " " type);
               anchor_value := value; passengers := ps |}) g6).1.2 in
      booking_spec.sized i b ∧ booking_spec.anchored b
      ∧ booking_spec.categorised b).
  { intros value g5 Hv1 Hv2 Hv3 Hv4.
    pose proof (generate_passengers_spec (Z.to_nat volume) type value
                  selected g5) as [Hcount Hall].
    destruct (game_logic.generate_passengers _ _ _ _ g5) as [ps g6].
    simpl in *.
    split; [unfold booking_spec.sized; simpl; repeat split; lia|].
    split.
    - unfold booking_spec.anchored. simpl.
      repeat (apply elem_of_cons in Htype as [->|Htype]).
      + left. split; [done|]. split; [by apply Hv1|].
        eapply Forall_impl; [exact Hall|]. intros p Hp. by apply Hp.
      + right; left. split; [done|]. split; [by apply Hv2|].
        eapply Forall_impl; [exact Hall|]. intros p Hp. by apply Hp.
      + right; right; left. split; [done|]. split; [by apply Hv3|].
        eapply Forall_impl; [exact Hall|]. intros p Hp. by apply Hp.
      + right; right; right. split; [done|]. split; [by apply Hv4|].
        eapply Forall_impl; [exact Hall|]. intros p Hp. by apply Hp.
      + by apply elem_of_nil in Htype.
    - unfold booking_spec.categorised. simpl.
      eapply Forall_impl; [exact Hall|]. simpl.
      intros p (P1 & P2 & S1 & S2 & A1 & A2 & R1 & R2).
      split; [destruct (decide (type = "profession")) as [H|H];
              [rewrite (P1 H); auto | auto]|].
      split; [destruct (decide (type = "sex")) as [H|H];
              [rewrite (S1 H); auto | auto]|].
      split; [destruct (decide (type = "age_group")) as [H|H];
              [rewrite (A1 H); auto | auto]|].
      destruct (decide (type = "region")) as [H|H];
        [rewrite (R1 H); auto | auto]. }
  repeat case_decide.
  - pose proof (choice_elem "" game_logic.PROFESSIONS g4 ltac:(done)).
    destruct (random.choice "" game_logic.PROFESSIONS g4) as [value g5].
    apply Hcases; try done; by intros ->.
  - pose proof (choice_elem "" game_logic.SEXES g4 ltac:(done)).
    destruct (random.choice "" game_logic.SEXES g4) as [value g5].
    apply Hcases; try done; by intros ->.
  - pose proof (choice_elem "" game_logic.AGE_GROUPS g4 ltac:(done)).
    destruct (random.choice "" game_logic.AGE_GROUPS g4) as [value g5].
    apply Hcases; try done; by intros ->.
  - pose proof (choice_elem "" game_logic.INDIAN_STATES g4 ltac:(done)) as Hin.
    destruct (random.choice "" game_logic.INDIAN_STATES g4) as [value g5].
    apply Hcases; try done; by intros ->.
Qed.

Lemma generate_from_lookup (Q : Z → BookingRequest → Prop) :
  (∀ i g, Q i (game_logic.generate_booking i g).1.2) →
  ∀ (n : nat) (i : Z) g (j : nat) (b : BookingRequest),
    (game_logic.generate_from i n g).1.*2 !! j = Some b →
    Q (i + Z.of_nat j) b.
Proof.
  intros HQ. induction n as [|n IH]; intros i g j b; simpl; [done|].
  unfold mbind, Rand_bind, random.bind.
  pose proof (HQ i g) as Hhere.
  destruct (game_logic.generate_booking i g) as [sb g1].
  specialize (IH (i + 1) g1).
  destruct (game_logic.generate_from (i + 1) n g1) as [bs g2]. simpl in *.
  destruct j as [|j]; simpl.
  - intros [= <-]. by rewrite Z.add_0_r.
  - intros Hj. specialize (IH j b Hj).
    by replace (i + Z.of_nat (S j)) with (i + 1 + Z.of_nat j) by lia.
Qed.

Lemma generate_bookings_lookup (Q : Z → BookingRequest → Prop) :
  (∀ i g, Q i (game_logic.generate_booking i g).1.2) →
  ∀ g (j : nat) (b : BookingRequest),
    (game_logic.generate_bookings g).1 !! j = Some b → Q (Z.of_nat j) b.
Proof.
  intros HQ g j b. unfold game_logic.generate_bookings,
    game_logic.generate_bookings_with_regions, mbind, Rand_bind, random.bind.
  pose proof (generate_from_lookup Q HQ game_logic.TOTAL_BOOKINGS_PER_GAME
                0 g j b) as H.
  destruct (game_logic.generate_from 0 _ g) as [bs g']. simpl in *.
  intros Hj. by apply H.
Qed.


(** X13 -- whatever the draws, every generated booking is anchored: its
    anchor type is one of "Profession", "Sex", "Age Group" and "Region", its
    anchor value is a category of that dimension, and every one of its
    passengers has the anchor value in that dimension. *)
Theorem generated_booking_anchored (g : random.Random) (j : nat)
    (b : BookingRequest) :
  (game_logic.generate_bookings g).1 !! j = Some b →
  booking_spec.anchored b.
Proof.
  apply (generate_bookings_lookup (λ _, booking_spec.anchored)).
  intros i g0. apply generate_booking_shape.
Qed.

(** X14 -- whatever the draws, every attribute of every passenger of a
    generated booking is taken from the category list of its dimension. *)
Theorem generated_booking_categorised (g : random.Random) (j : nat)
    (b : BookingRequest) :
  (game_logic.generate_bookings g).1 !! j = Some b →
  booking_spec.categorised b.
Proof.
  apply (generate_bookings_lookup (λ _, booking_spec.categorised)).
  intros i g0. apply generate_booking_shape.
Qed.


Lemma generated_booking_anchored_witness :
  ∃ b, (game_logic.generate_bookings generator_spec.goa_draws).1 !! 0%nat
       = Some b
       ∧ booking_spec.anchored b.
Proof.
  eexists. split; [by vm_compute|].
  apply (generated_booking_anchored generator_spec.goa_draws 0). by vm_compute.
Defined.

Lemma generated_booking_categorised_witness :
  ∃ b, (game_logic.generate_bookings generator_spec.goa_draws).1 !! 0%nat
       = Some b
       ∧ booking_spec.categorised b.
Proof.
  eexists. split; [by vm_compute|].
  apply (generated_booking_categorised generator_spec.goa_draws 0).
  by vm_compute.
Defined.

(** ** [connection_manager.py]: the registry *)

Lemma connect_appends_aux (websocket : runtime.WebSocket)
    (room_id player_id : string) (w : runtime.World) :
  let r := connection_manager.connect websocket room_id player_id w in
  r.1 = runtime.Ok tt
  ∧ runtime.active_connections r.2 !! room_id
    = Some (default [] (runtime.active_connections w !! room_id)
            ++ [(player_id, websocket)])
  ∧ (∀ other, other ≠ room_id →
       runtime.active_connections r.2 !! other
       = runtime.active_connections w !! other)
  ∧ runtime.game_manager r.2 = runtime.game_manager w
  ∧ runtime.output r.2 = runtime.output w
  ∧ runtime.tasks r.2 = runtime.tasks w
  ∧ runtime.rng r.2 = runtime.rng w.
Proof.
  unfold connection_manager.connect, mbind, IO_bind, runtime.bind,
    runtime.get_world, runtime.set_active_connections. simpl.
  split; [done|]. split; [apply lookup_insert_eq|].
  split; [intros other Hne; by apply lookup_insert_ne|]. done.
Qed.


Lemma remove_connection_absent (websocket : runtime.WebSocket)
    (l : list (string * runtime.WebSocket)) :
  websocket ∉ l.*2 → connection_manager.remove_connection websocket l = l.
Proof.
  induction l as [|[pid c] l IH]; simpl; [done|].
  intros Hnot. apply not_elem_of_cons in Hnot as [Hne Hnot].
  rewrite decide_False by done. by rewrite IH.
Qed.

Lemma remove_connection_first (websocket : runtime.WebSocket)
    (player_id : string) (l1 l2 : list (string * runtime.WebSocket)) :
  websocket ∉ l1.*2 →
  connection_manager.remove_connection websocket
    (l1 ++ (player_id, websocket) :: l2)
  = l1 ++ l2.
Proof.
  induction l1 as [|[pid c] l1 IH]; simpl.
  - intros _. by rewrite decide_True.
  - intros Hnot. apply not_elem_of_cons in Hnot as [Hne Hnot].
    rewrite decide_False by done. by rewrite IH.
Qed.

(** X16 -- [disconnect] of a socket that is not registered in the room, or
    in a room that has no list at all, changes no list of connections and
    nothing else; it does not fail either. *)
Theorem disconnect_unregistered (websocket : runtime.WebSocket)
    (room_id player_id : string) (w : runtime.World) :
  websocket ∉ (default [] (runtime.active_connections w !! room_id)).*2 →
  let r := connection_manager.disconnect websocket room_id player_id w in
  r.1 = runtime.Ok tt
  ∧ runtime.active_connections r.2 = runtime.active_connections w
  ∧ runtime.game_manager r.2 = runtime.game_manager w
  ∧ runtime.output r.2 = runtime.output w
  ∧ runtime.tasks r.2 = runtime.tasks w
  ∧ runtime.rng r.2 = runtime.rng w.
Proof.
  intros Hnot. unfold connection_manager.disconnect, mbind, IO_bind,
    runtime.bind, runtime.get_world, runtime.set_active_connections. simpl.
  destruct (runtime.active_connections w !! room_id) as [l|] eqn:Hl;
    simpl in *; [|done].
  rewrite remove_connection_absent by done.
  split; [done|]. split; [by apply insert_id|]. done.
Qed.

Lemma disconnect_unregistered_witness :
  runtime.active_connections
    (connection_manager.disconnect 9%nat "a1b2c3" "p1" scenario.short_game).2
  = runtime.active_connections scenario.short_game.
Proof.
  destruct (disconnect_unregistered 9%nat "a1b2c3" "p1" scenario.short_game)
    as (_ & Hsame & _); [|exact Hsame].
  apply (bool_decide_unpack _). by vm_compute.
Defined.

Lemma disconnect_removes_first_aux (websocket : runtime.WebSocket)
    (room_id player_id registered_as : string)
    (l1 l2 : list (string * runtime.WebSocket)) (w : runtime.World) :
  runtime.active_connections w !! room_id
  = Some (l1 ++ (registered_as, websocket) :: l2) →
  websocket ∉ l1.*2 →
  let r := connection_manager.disconnect websocket room_id player_id w in
  r.1 = runtime.Ok tt
  ∧ runtime.active_connections r.2 !! room_id = Some (l1 ++ l2)
  ∧ (∀ other, other ≠ room_id →
       runtime.active_connections r.2 !! other
       = runtime.active_connections w !! other).
Proof.
  intros Hl Hnot. unfold connection_manager.disconnect, mbind, IO_bind,
    runtime.bind, runtime.get_world, runtime.set_active_connections. simpl.
  rewrite Hl. simpl. rewrite remove_connection_first by done.
  split; [done|]. split; [apply lookup_insert_eq|].
  intros other Hne. by apply lookup_insert_ne.
Qed.

(** X17 -- [disconnect] takes out exactly one pair, the first one that
    holds the socket, whatever player id it is called with; the pairs before
    and after it keep their order, and later registrations of the same
    socket stay. *)
Theorem disconnect_removes_first (websocket : runtime.WebSocket)
    (room_id player_id registered_as : string)
    (l1 l2 : list (string * runtime.WebSocket)) (w : runtime.World) :
  runtime.active_connections w !! room_id
  = Some (l1 ++ (registered_as, websocket) :: l2) →
  websocket ∉ l1.*2 →
  let r := connection_manager.disconnect websocket room_id player_id w in
  r.1 = runtime.Ok tt
  ∧ runtime.active_connections r.2 !! room_id = Some (l1 ++ l2)
  ∧ (∀ other, other ≠ room_id →
       runtime.active_connections r.2 !! other
       = runtime.active_connections w !! other).
Proof. apply disconnect_removes_first_aux. Qed.

Lemma disconnect_removes_first_witness :
  runtime.active_connections
    (connection_manager.disconnect 1%nat "a1b2c3" "nobody"
       scenario.short_game).2 !! "a1b2c3"
  = Some [("p1", 2%nat)].
Proof.
  destruct (disconnect_removes_first 1%nat "a1b2c3" "nobody" "host"
              [] [("p1", 2%nat)] scenario.short_game)
    as (_ & Hlist & _); [by vm_compute | | exact Hlist].
  simpl. apply not_elem_of_nil.
Defined.

(** X18 -- [connect] followed by [disconnect] of a socket that was not yet
    registered in the room gives back the room's connections as they were;
    a room that had no list before is left with an empty one. The other
    rooms are untouched. *)
Theorem connect_then_disconnect (websocket : runtime.WebSocket)
    (room_id player_id : string) (w : runtime.World) :
  websocket ∉ (default [] (runtime.active_connections w !! room_id)).*2 →
  let w1 := (connection_manager.connect websocket room_id player_id w).2 in
  let w2 := (connection_manager.disconnect websocket room_id player_id w1).2 in
  runtime.active_connections w2 !! room_id
  = Some (default [] (runtime.active_connections w !! room_id))
  ∧ (connection_manager.get_connections_in_room room_id w2).1
    = (connection_manager.get_connections_in_room room_id w).1
  ∧ ∀ other, other ≠ room_id →
      runtime.active_connections w2 !! other
      = runtime.active_connections w !! other.
Proof.
  intros Hnot w1 w2.
  destruct (connect_appends_aux websocket room_id player_id w)
    as (_ & Hroom & Hothers & _). fold w1 in Hroom, Hothers.
  destruct (disconnect_removes_first_aux websocket room_id player_id player_id
              (default [] (runtime.active_connections w !! room_id)) [] w1)
    as (_ & Hroom2 & Hothers2); [done.. |].
  fold w2 in Hroom2, Hothers2. rewrite app_nil_r in Hroom2.
  split; [done|]. split.
  - unfold connection_manager.get_connections_in_room, mbind, IO_bind,
      runtime.bind, runtime.get_world, mret, IO_ret, runtime.ret. simpl.
    by rewrite Hroom2.
  - intros other Hne. by rewrite Hothers2, Hothers.
Qed.

Lemma connect_then_disconnect_witness :
  let w1 := (connection_manager.connect 7%nat "a1b2c3" "p1"
               scenario.short_game).2 in
  let w2 := (connection_manager.disconnect 7%nat "a1b2c3" "p1" w1).2 in
  runtime.active_connections w2 !! "a1b2c3"
  = Some [("host", 1%nat); ("p1", 2%nat)].
Proof.
  intros w1 w2.
  destruct (connect_then_disconnect 7%nat "a1b2c3" "p1" scenario.short_game)
    as [Hback _]; [|exact Hback].
  apply (bool_decide_unpack _). by vm_compute.
Defined.

(** ** [main.py]: opening a round *)

Lemma send_round_views (room : GameRoom) (b : BookingRequest)
    (conns : list (string * runtime.WebSocket)) (w : runtime.World) :
  world_spec.all_open w conns →
  runtime.for_each conns (λ '(player_id, connection),
    if decide (player_id = host_id room)
    then runtime.send_text connection (runtime.host_view room b)
    else runtime.send_text connection (runtime.booking_request room b)) w
  = (runtime.Ok tt,
     world_spec.add_output (world_spec.round_views room b conns) w).
Proof.
  revert w. induction conns as [|[pid c] conns IH]; intros w Hopen; simpl.
  - unfold runtime.ret, world_spec.add_output. simpl. rewrite app_nil_r.
    by destruct w.
  - apply Forall_cons in Hopen as [Hc Hopen]. simpl in Hc.
    unfold runtime.bind.
    assert (Hsend : ∀ text, runtime.send_text c text w
              = (runtime.Ok tt, world_spec.add_output [runtime.Sent c text] w)).
    { intros text. unfold runtime.send_text. by rewrite Hc. }
    assert (Hstep : (if decide (pid = host_id room)
                     then runtime.send_text c (runtime.host_view room b)
                     else runtime.send_text c (runtime.booking_request room b))
                      w
              = (runtime.Ok tt,
                 world_spec.add_output
                   [runtime.Sent c (if decide (pid = host_id room)
                                    then runtime.host_view room b
                                    else runtime.booking_request room b)] w)).
    { case_decide; apply Hsend. }
    rewrite Hstep, IH by done.
    unfold world_spec.add_output. simpl. by rewrite <- app_assoc.
Qed.

Lemma send_round_views_closed (room : GameRoom) (b : BookingRequest)
    (l1 l2 : list (string * runtime.WebSocket)) (pid : string)
    (c : runtime.WebSocket) (msg : string) (w : runtime.World) :
  world_spec.all_open w l1 →
  runtime.closed w !! c = Some msg →
  runtime.for_each (l1 ++ (pid, c) :: l2) (λ '(player_id, connection),
    if decide (player_id = host_id room)
    then runtime.send_text connection (runtime.host_view room b)
    else runtime.send_text connection (runtime.booking_request room b)) w
  = (runtime.Raised (runtime.RuntimeError msg),
     world_spec.add_output (world_spec.round_views room b l1) w).
Proof.
  revert w. induction l1 as [|[pid1 c1] l1 IH]; intros w Hopen Hc; simpl.
  - unfold runtime.bind, world_spec.add_output. simpl. rewrite app_nil_r.
    case_decide; unfold runtime.send_text; rewrite Hc; by destruct w.
  - apply Forall_cons in Hopen as [Hc1 Hopen]. simpl in Hc1.
    unfold runtime.bind.
    assert (Hstep : (if decide (pid1 = host_id room)
                     then runtime.send_text c1 (runtime.host_view room b)
                     else runtime.send_text c1 (runtime.booking_request room b))
                      w
              = (runtime.Ok tt,
                 world_spec.add_output
                   [runtime.Sent c1 (if decide (pid1 = host_id room)
                                     then runtime.host_view room b
                                     else runtime.booking_request room b)] w)).
    { unfold runtime.send_text. case_decide; by rewrite Hc1. }
    rewrite Hstep, IH by done.
    unfold world_spec.add_output. simpl. by rewrite <- app_assoc.
Qed.

Lemma start_new_round_opens_round_aux (room_id : string) (room : GameRoom)
    (b : BookingRequest) (w : runtime.World) :
  runtime.game_manager w !! room_id = Some room →
  get_current_booking room = Some b →
  world_spec.all_open w (world_spec.connections room_id w) →
  main.start_new_round room_id w
  = (runtime.Ok tt,
     world_spec.add_task room_id (current_round room)
       (world_spec.add_output
          (world_spec.round_views room b (world_spec.connections room_id w))
          w)).
Proof.
  intros Hroom Hb Hopen. unfold main.start_new_round.
  unfold mbind, IO_bind, runtime.bind, runtime.get_world. simpl.
  rewrite Hroom, Hb.
  unfold connection_manager.get_connections_in_room.
  unfold mbind, mret, IO_bind, IO_ret, runtime.bind, runtime.ret,
    runtime.get_world. simpl.
  fold (world_spec.connections room_id w).
  by rewrite send_round_views.
Qed.

(** X19 -- [start_new_round] for a room that has a current booking, when
    every socket registered for the room is open: the host view goes to each
    connection of the host and the booking request to each other connection,
    in registration order; then exactly one timer is created, for the room's
    current round. The rooms and the generator are untouched. *)
Theorem start_new_round_opens_round (room_id : string) (room : GameRoom)
    (b : BookingRequest) (w : runtime.World) :
  runtime.game_manager w !! room_id = Some room →
  get_current_booking room = Some b →
  world_spec.all_open w (world_spec.connections room_id w) →
  main.start_new_round room_id w
  = (runtime.Ok tt,
     world_spec.add_task room_id (current_round room)
       (world_spec.add_output
          (world_spec.round_views room b (world_spec.connections room_id w))
          w)).
Proof. apply start_new_round_opens_round_aux. Qed.

Lemma start_new_round_opens_round_witness :
  runtime.tasks
    (main.start_new_round "a1b2c3"
       (world_spec.set_room "a1b2c3" scenario.started scenario.attendance
          (scenario.world [scenario.block 0 10]))).2
  = [("a1b2c3", 0)].
Proof.
  rewrite (start_new_round_opens_round "a1b2c3" scenario.started
             (scenario.block 0 10)).
  - by vm_compute.
  - by vm_compute.
  - by vm_compute.
  - apply (bool_decide_unpack _). by vm_compute.
Defined.

(** X20 -- [start_new_round] does not guard its sends: when a socket
    registered for the room is closed, the views go out to the connections
    registered before it, the [RuntimeError] of the closed socket leaves the
    function, the connections after it get nothing and no timer is created
    for the round. *)
Theorem start_new_round_stops_at_closed_socket (room_id : string)
    (room : GameRoom) (b : BookingRequest)
    (l1 l2 : list (string * runtime.WebSocket)) (pid : string)
    (c : runtime.WebSocket) (msg : string) (w : runtime.World) :
  runtime.game_manager w !! room_id = Some room →
  get_current_booking room = Some b →
  world_spec.connections room_id w = l1 ++ (pid, c) :: l2 →
  world_spec.all_open w l1 →
  runtime.closed w !! c = Some msg →
  main.start_new_round room_id w
  = (runtime.Raised (runtime.RuntimeError msg),
     world_spec.add_output (world_spec.round_views room b l1) w).
Proof.
  intros Hroom Hb Hconns Hopen Hc. unfold main.start_new_round.
  unfold mbind, IO_bind, runtime.bind, runtime.get_world. simpl.
  rewrite Hroom, Hb.
  unfold connection_manager.get_connections_in_room.
  unfold mbind, mret, IO_bind, IO_ret, runtime.bind, runtime.ret,
    runtime.get_world. simpl.
  fold (world_spec.connections room_id w). rewrite Hconns.
  by rewrite (send_round_views_closed room b l1 l2 pid c msg).
Qed.

Lemma start_new_round_stops_at_closed_socket_witness :
  main.start_new_round "a1b2c3" closed_socket.stalled
  = (runtime.Raised (runtime.RuntimeError "socket closed"),
     world_spec.add_output
       [runtime.Sent 1%nat
          (runtime.host_view scenario.started (scenario.block 0 10))]
       closed_socket.stalled).
Proof.
  apply (start_new_round_stops_at_closed_socket "a1b2c3" scenario.started
           (scenario.block 0 10) [("host", 1%nat)] [] "p1" 2%nat
           "socket closed" closed_socket.stalled).
  - by vm_compute.
  - by vm_compute.
  - by vm_compute.
  - apply (bool_decide_unpack _). by vm_compute.
  - by vm_compute.
Defined.

(** ** [main.py]: the round timer *)

(** X21 -- a timer that fires for a room that does not exist, or for a
    round that is not the room's current round any more, does nothing at
    all. *)
Theorem round_timer_stale (room_id : string) (round_number : Z)
    (w : runtime.World) :
  (∀ room, runtime.game_manager w !! room_id = Some room →
           current_round room ≠ round_number) →
  main.round_timer room_id round_number w = (runtime.Ok tt, w).
Proof.
  intros Hstale. unfold main.round_timer.
  unfold mbind, mret, IO_bind, IO_ret, runtime.bind, runtime.ret,
    runtime.get_world. simpl.
  destruct (runtime.game_manager w !! room_id) as [room|]; [|done].
  rewrite decide_False; [done|]. by apply Hstale.
Qed.

Lemma round_timer_stale_witness :
  main.round_timer "a1b2c3" 0 scenario.finished_game
  = (runtime.Ok tt, scenario.finished_game).
Proof.
  apply round_timer_stale. intros room Hroom.
  vm_compute in Hroom. injection Hroom as <-. by vm_compute.
Defined.

(** X22 -- a timer that fires for the current round of a room, when that
    round is not the last one and every socket registered for the room is
    open: the room moves to the next round without a random draw, the views
    of the next booking are sent, and exactly one new timer is created, for
    the next round. *)
Theorem round_timer_moves_to_next_round (room_id : string) (room : GameRoom)
    (w : runtime.World) :
  runtime.game_manager w !! room_id = Some room →
  0 ≤ current_round room →
  current_round room + 1 < Z.of_nat (length (bookings room)) →
  world_spec.all_open w (world_spec.connections room_id w) →
  let room' := (advance_to_next_round room (runtime.rng w)).1 in
  ∃ b',
    bookings room !! Z.to_nat (current_round room + 1) = Some b'
    ∧ current_round room' = current_round room + 1
    ∧ game_status room' = game_status room
    ∧ main.round_timer room_id (current_round room) w
      = (runtime.Ok tt,
         world_spec.add_task room_id (current_round room + 1)
           (world_spec.add_output
              (world_spec.round_views room' b'
                 (world_spec.connections room_id w))
              (world_spec.set_room room_id room' (runtime.rng w) w))).
Proof.
  intros Hroom Hlo Hnext Hopen room'.
  destruct (lookup_lt_is_Some_2 (bookings room)
              (Z.to_nat (current_round room + 1))) as [b' Hb']; [lia|].
  exists b'. split; [done|].
  pose proof (advance_round_bounds_aux room (runtime.rng w))
    as (Hbk & _ & _ & _ & _ & Hstep & _ & _ & Hkeep).
  specialize (Hstep ltac:(lia)). destruct Hkeep as [Hstatus Hrng]; [lia|].
  fold room' in Hbk, Hstep, Hstatus.
  split; [done|]. split; [done|].
  unfold main.round_timer.
  unfold mbind at 1, IO_bind, runtime.bind, runtime.get_world. simpl.
  rewrite Hroom. rewrite decide_True by done.
  unfold mbind, IO_bind, runtime.bind, runtime.call_method.
  destruct (advance_to_next_round room (runtime.rng w)) as [r g'] eqn:Hadv.
  simpl in *. subst room' g'.
  rewrite <- Hstep.
  apply (start_new_round_opens_round_aux room_id r b'
           (world_spec.set_room room_id r (runtime.rng w) w)).
  - apply lookup_insert_eq.
  - unfold get_current_booking. rewrite Hbk, Hstep.
    rewrite bool_decide_eq_true_2 by lia. done.
  - done.
Qed.

Lemma round_timer_moves_to_next_round_witness :
  ∃ room,
    scenario.the_room
      (main.round_timer "a1b2c3" 0
         ((scenario.opening (scenario.world scenario.fifteen)).2)).2
    = Some room
    ∧ current_round room = 1.
Proof.
  destruct (round_timer_moves_to_next_round "a1b2c3"
              (start_game (scenario.lobby scenario.fifteen))
              ((scenario.opening (scenario.world scenario.fifteen)).2))
    as (b' & _ & Hround & _ & Hrun).
  - by vm_compute.
  - by vm_compute.
  - by vm_compute.
  - apply (bool_decide_unpack _). by vm_compute.
  - eexists. split; [|exact Hround].
    change (current_round (start_game (scenario.lobby scenario.fifteen)))
      with 0 in Hrun.
    rewrite Hrun. unfold scenario.the_room. simpl.
    apply lookup_insert_eq.
Defined.

(** ** [main.py]: the socket endpoint *)

(** X23 -- a message whose action is none of "start_game", "accept_booking"
    and "reject_booking" is ignored: nothing changes and nothing is sent. *)
Theorem unknown_action_ignored (ep : main.Endpoint) (action : string)
    (w : runtime.World) :
  action ≠ "start_game" →
  action ≠ "accept_booking" →
  action ≠ "reject_booking" →
  main.websocket_receive ep action w = (runtime.Ok tt, w).
Proof.
  intros H1 H2 H3. unfold main.websocket_receive.
  rewrite !skip_other_action by done. by apply when_action_other.
Qed.

Lemma unknown_action_ignored_witness :
  main.websocket_receive scenario.p1_ep "pause_game" scenario.short_game
  = (runtime.Ok tt, scenario.short_game).
Proof. by apply unknown_action_ignored. Defined.

Lemma when_action_match (ep : main.Endpoint) (action : string)
    (body : GameRoom → runtime.IO unit) (room : GameRoom)
    (w : runtime.World) :
  main.game_room ep = true →
  runtime.game_manager w !! main.room_id ep = Some room →
  main.when_action ep action action body w = body room w.
Proof.
  intros Hep Hroom. unfold main.when_action.
  unfold mbind, IO_bind, runtime.bind, runtime.get_world. simpl.
  by rewrite Hroom, Hep, bool_decide_eq_true_2.
Qed.

(** X24 -- an accept action of an endpoint that found its room is recorded
    before the confirmation is sent: the room is updated by
    [player_accept_booking] for the endpoint's player whether the endpoint's
    own socket is open or closed; with an open socket the confirmation is
    sent, with a closed one the [RuntimeError] leaves the handler. No timer
    is created and no random draw is made. *)
Theorem accept_action_recorded (ep : main.Endpoint) (room : GameRoom)
    (w : runtime.World) :
  main.game_room ep = true →
  runtime.game_manager w !! main.room_id ep = Some room →
  let r := main.websocket_receive ep "accept_booking" w in
  let w1 :=
    world_spec.set_room (main.room_id ep)
      (player_accept_booking room (main.player_id ep)) (runtime.rng w) w in
  match runtime.closed w !! main.websocket ep with
  | None =>
      r = (runtime.Ok tt,
           world_spec.add_output
             [runtime.Sent (main.websocket ep)
                (runtime.waiting_for_decision "Accepted")] w1)
  | Some msg => r = (runtime.Raised (runtime.RuntimeError msg), w1)
  end.
Proof.
  intros Hep Hroom r w1. subst r w1.
  destruct (runtime.closed w !! main.websocket ep) as [msg|] eqn:Hclosed;
    unfold main.websocket_receive;
    rewrite skip_other_action by done;
    unfold mbind at 1, IO_bind, runtime.bind;
    rewrite (when_action_match ep "accept_booking" _ room) by done;
    unfold mbind, mret, IO_bind, IO_ret, Rand_ret, runtime.bind, runtime.ret,
      runtime.call_method, random.ret, runtime.send_text; simpl;
    rewrite Hclosed; simpl; [done|].
  by rewrite when_action_other.
Qed.

Lemma accept_action_recorded_witness :
  ∃ room p,
    scenario.the_room
      (main.websocket_receive scenario.p1_ep "accept_booking"
         closed_socket.stalled).2 = Some room
    ∧ odict.get (players room) "p1" = Some p
    ∧ choice_history p !! 0 = Some "Accepted"
    ∧ (main.websocket_receive scenario.p1_ep "accept_booking"
         closed_socket.stalled).1
      = runtime.Raised (runtime.RuntimeError "socket closed").
Proof.
  pose proof (accept_action_recorded scenario.p1_ep scenario.started
                closed_socket.stalled eq_refl eq_refl) as Hrun.
  change (runtime.closed closed_socket.stalled
            !! main.websocket scenario.p1_ep)
    with (Some "socket closed") in Hrun.
  simpl in Hrun. rewrite Hrun.
  eexists _, _. split; [by vm_compute|]. split; [by vm_compute|].
  split; by vm_compute.
Defined.




(** ** [main.py]: unique display names *)

Lemma numbered_inj (base_name : string) (c1 c2 : Z) :
  http.numbered base_name c1 = http.numbered base_name c2 → c1 = c2.
Proof.
  unfold http.numbered. intros Heq.
  apply (inj (String.app base_name)) in Heq.
  apply (inj (String.app "#")) in Heq.
  by apply (inj pretty) in Heq.
Qed.

Lemma next_free_name_finds (fuel : nat) (base_name : string)
    (players : list Player) (counter : Z) (k : nat) :
  (k < fuel)%nat →
  http.name_taken (http.numbered base_name (counter + Z.of_nat k)) players
  = false →
  ∃ j : nat,
    (j ≤ k)%nat
    ∧ http.next_free_name fuel base_name players counter
      = Some (http.numbered base_name (counter + Z.of_nat j))
    ∧ http.name_taken (http.numbered base_name (counter + Z.of_nat j)) players
      = false
    ∧ ∀ i : nat, (i < j)%nat →
        http.name_taken (http.numbered base_name (counter + Z.of_nat i))
          players = true.
Proof.
  revert counter k. induction fuel as [|fuel IH]; intros counter k Hk Hfree;
    [lia|]. simpl.
  destruct (http.name_taken (http.numbered base_name counter) players)
    eqn:Hhere.
  - destruct k as [|k].
    { rewrite Z.add_0_r in Hfree. congruence. }
    destruct (IH (counter + 1) k) as (j & Hj & Hfound & Hfreej & Hbefore);
      [lia | by replace (counter + 1 + Z.of_nat k)
                 with (counter + Z.of_nat (S k)) by lia |].
    exists (S j). split; [lia|].
    replace (counter + Z.of_nat (S j)) with (counter + 1 + Z.of_nat j) by lia.
    split; [done|]. split; [done|].
    intros [|i] Hi.
    + by rewrite Z.add_0_r.
    + replace (counter + Z.of_nat (S i)) with (counter + 1 + Z.of_nat i)
        by lia. apply Hbefore. lia.
  - exists 0%nat. rewrite Z.add_0_r. split; [lia|]. split; [done|].
    split; [done|]. intros i Hi. lia.
Qed.

(** Among the names numbered 2, 3, ..., len(players) + 2 one is free: they
    are pairwise distinct and one more than there are players. *)
Lemma numbered_name_free (base_name : string) (players : list Player) :
  ∃ k : nat,
    (k ≤ length players)%nat
    ∧ http.name_taken (http.numbered base_name (2 + Z.of_nat k)) players
      = false.
Proof.
  set (candidates :=
         (λ k : nat, http.numbered base_name (2 + Z.of_nat k))
           <$> seq 0 (S (length players))).
  destruct (decide (Forall (λ nm, nm ∈ name <$> players) candidates))
    as [Hall|Hsome].
  - exfalso.
    assert (Hnodup : NoDup candidates).
    { subst candidates. apply NoDup_fmap_2; [|apply NoDup_seq].
      intros k1 k2 Heq. apply numbered_inj in Heq. lia. }
    pose proof (NoDup_submseteq _ (name <$> players) Hnodup) as Hsub.
    apply submseteq_length in Hsub.
    + subst candidates.
      rewrite !length_fmap, length_seq in Hsub. lia.
    + intros x Hx. by eapply Forall_forall in Hall.
  - apply not_Forall_Exists in Hsome; [|apply _].
    apply Exists_exists in Hsome as (nm & Hin & Hfree).
    subst candidates. apply list_elem_of_fmap in Hin as (k & -> & Hk).
    apply elem_of_seq in Hk. exists k. split; [lia|].
    unfold http.name_taken. by rewrite bool_decide_eq_false_2.
Qed.

Lemma get_unique_name_found_aux (fuel : nat) (base_name : string)
    (players : list Player) :
  (length players < fuel)%nat →
  ∃ nm,
    http.get_unique_name fuel base_name players = Some nm
    ∧ http.name_taken nm players = false
    ∧ (http.name_taken base_name players = false → nm = base_name)
    ∧ (http.name_taken base_name players = true →
       ∃ c, 2 ≤ c ≤ Z.of_nat (length players) + 2
            ∧ nm = http.numbered base_name c
            ∧ ∀ c', 2 ≤ c' < c →
                http.name_taken (http.numbered base_name c') players = true).
Proof.
  intros Hfuel. unfold http.get_unique_name.
  destruct (http.name_taken base_name players) eqn:Hbase.
  - destruct (numbered_name_free base_name players) as (k & Hk & Hfree).
    destruct (next_free_name_finds fuel base_name players 2 k)
      as (j & Hj & Hfound & Hfreej & Hbefore); [lia | done |].
    eexists. split; [exact Hfound|]. split; [done|]. split; [done|].
    intros _. exists (2 + Z.of_nat j). split; [lia|]. split; [done|].
    intros c' Hc'.
    replace c' with (2 + Z.of_nat (Z.to_nat (c' - 2))) by lia.
    apply Hbefore. lia.
  - exists base_name. split; [done|]. split; [done|]. split; [done|]. done.
Qed.

(** X27 -- [get_unique_name] ends within len(players) + 1 rounds of its
    loop and returns a name no player has: the base name itself when it is
    free, otherwise the base name followed by "#" and the smallest number
    from 2 on that makes a free name, which is at most len(players) + 2. *)
Theorem get_unique_name_found (fuel : nat) (base_name : string)
    (players : list Player) :
  (length players < fuel)%nat →
  ∃ nm,
    http.get_unique_name fuel base_name players = Some nm
    ∧ http.name_taken nm players = false
    ∧ (http.name_taken base_name players = false → nm = base_name)
    ∧ (http.name_taken base_name players = true →
       ∃ c, 2 ≤ c ≤ Z.of_nat (length players) + 2
            ∧ nm = http.numbered base_name c
            ∧ ∀ c', 2 ≤ c' < c →
                http.name_taken (http.numbered base_name c') players = true).
Proof. apply get_unique_name_found_aux. Qed.

Lemma get_unique_name_found_witness :
  http.get_unique_name 3 "Ravi"
    (odict.values (players (scenario.lobby []))) = Some "Ravi#2".
Proof.
  destruct (get_unique_name_found 3 "Ravi"
              (odict.values (players (scenario.lobby []))))
    as (nm & Hfound & _); [vm_compute; lia|].
  rewrite Hfound. f_equal.
  assert (Hrun : http.get_unique_name 3 "Ravi"
                   (odict.values (players (scenario.lobby [])))
                 = Some "Ravi#2") by (by vm_compute).
  rewrite Hfound in Hrun. by injection Hrun.
Defined.

(** ** [main.py]: entering a room *)




(** ** [main.py]: creating a room *)

(** X29 -- [host_game] puts under the room id a room that is WAITING at
    round 0, has the fifteen freshly generated bookings, and has one player,
    the host, under the host id with the display name followed by
    " (Host)" and all other fields at their defaults. It does not look
    whether the room id is in use: a room that was there is replaced. The
    other rooms, the connections, the timers and the output are untouched. *)
Theorem host_game_creates_room (room_id host_id player_name : string)
    (w : runtime.World) :
  let r := http.host_game room_id host_id player_name w in
  ∃ room,
    r.1 = runtime.Ok tt
    ∧ runtime.game_manager r.2 !! room_id = Some room
    ∧ game_models.room_id room = room_id
    ∧ game_models.host_id room = host_id
    ∧ game_status room = "WAITING"
    ∧ current_round room = 0
    ∧ players room
      = [(host_id, new_Player host_id (player_name +:+ " (Host)"))]
    ∧ bookings room = (game_logic.generate_bookings (runtime.rng w)).1
    ∧ length (bookings room) = 15%nat
    ∧ runtime.rng r.2 = (game_logic.generate_bookings (runtime.rng w)).2
    ∧ (∀ other, other ≠ room_id →
         runtime.game_manager r.2 !! other = runtime.game_manager w !! other)
    ∧ runtime.active_connections r.2 = runtime.active_connections w
    ∧ runtime.tasks r.2 = runtime.tasks w
    ∧ runtime.output r.2 = runtime.output w.
Proof.
  intros r. subst r. unfold http.host_game.
  assert (Hlen : length (game_logic.generate_bookings (runtime.rng w)).1
                 = 15%nat).
  { unfold game_logic.generate_bookings,
      game_logic.generate_bookings_with_regions, mbind, Rand_bind,
      random.bind.
    destruct (generate_from_regions 0 game_logic.TOTAL_BOOKINGS_PER_GAME
                (runtime.rng w)) as [_ Hlen].
    destruct (game_logic.generate_from 0 _ (runtime.rng w)) as [bs g].
    simpl in *. by rewrite length_fmap. }
  destruct (game_logic.generate_bookings (runtime.rng w)) as [bs g].
  simpl in *. eexists. split; [done|]. split; [apply lookup_insert_eq|].
  simpl. do 8 (split; [done|]).
  split; [intros other Hne; by apply lookup_insert_ne|]. done.
Qed.

(** ** [game_models.py]: the demographic split *)

Lemma Counter_add_count (c : odict.t Z) (x v : string) :
  collections.count (collections.Counter_add c x) v
  = collections.count c v + (if decide (x = v) then 1 else 0).
Proof.
  unfold collections.count, collections.Counter_add.
  destruct (decide (x = v)) as [->|Hne].
  - by rewrite odict_get_set_eq.
  - rewrite odict_get_set_ne by done. lia.
Qed.

Lemma Counter_add_total (c : odict.t Z) (x : string) :
  Zsum (odict.values (collections.Counter_add c x))
  = Zsum (odict.values c) + 1.
Proof.
  unfold collections.Counter_add, odict.values, Zsum.
  induction c as [|[k n] c IH]; simpl; [done|].
  case_decide; simpl.
  - lia.
  - unfold fmap in *. lia.
Qed.

Lemma Counter_foldl (xs : list string) (c : odict.t Z) (v : string) :
  collections.count (foldl collections.Counter_add c xs) v
  = collections.count c v + Z.of_nat (length (filter (λ x, x = v) xs))
  ∧ Zsum (odict.values (foldl collections.Counter_add c xs))
    = Zsum (odict.values c) + Z.of_nat (length xs).
Proof.
  revert c. induction xs as [|x xs IH]; intros c; simpl.
  - split; lia.
  - destruct (IH (collections.Counter_add c x)) as [IH1 IH2].
    rewrite IH1, IH2, Counter_add_count, Counter_add_total.
    rewrite filter_cons. case_decide; simpl; split; lia.
Qed.

(** X30 -- [demographic_splits] has one counter for each of "Profession",
    "Sex", "Age Group" and "Region"; the counter of a dimension gives, for
    every value, the number of the booking's passengers that have this value
    in that dimension (0 for a value nobody has), and its counts add up to
    the number of passengers. *)
Theorem demographic_splits_count (self : BookingRequest)
    (dimension v : string) :
  dimension ∈ ["Profession"; "Sex"; "Age Group"; "Region"] →
  ∃ c,
    odict.get (splits.demographic_splits self) dimension = Some c
    ∧ collections.count c v
      = Z.of_nat (length (filter (λ x, x = v)
                            (splits.attribute_of dimension
                               <$> passengers self)))
    ∧ Zsum (odict.values c) = Z.of_nat (length (passengers self)).
Proof.
  intros Hdim.
  assert (Hcounter : ∀ xs : list string,
    collections.count (collections.Counter xs) v
    = Z.of_nat (length (filter (λ x, x = v) xs))
    ∧ Zsum (odict.values (collections.Counter xs)) = Z.of_nat (length xs)).
  { intros xs. destruct (Counter_foldl xs [] v) as [H1 H2].
    unfold collections.Counter. rewrite H1, H2. by vm_compute. }
  repeat (apply elem_of_cons in Hdim as [->|Hdim]);
    [| | | |by apply elem_of_nil in Hdim].
  - exists (collections.Counter (profession <$> passengers self)).
    split; [done|].
    destruct (Hcounter (profession <$> passengers self)) as [H1 H2].
    by rewrite H1, H2, length_fmap.
  - exists (collections.Counter (sex <$> passengers self)).
    split; [done|].
    destruct (Hcounter (sex <$> passengers self)) as [H1 H2].
    by rewrite H1, H2, length_fmap.
  - exists (collections.Counter (age_group <$> passengers self)).
    split; [done|].
    destruct (Hcounter (age_group <$> passengers self)) as [H1 H2].
    by rewrite H1, H2, length_fmap.
  - exists (collections.Counter (region <$> passengers self)).
    split; [done|].
    destruct (Hcounter (region <$> passengers self)) as [H1 H2].
    by rewrite H1, H2, length_fmap.
Qed.

Lemma demographic_splits_count_witness :
  ∃ c,
    odict.get (splits.demographic_splits (scenario.block 0 10)) "Region"
    = Some c
    ∧ collections.count c "Goa" = 10
    ∧ collections.count c "Kerala" = 0.
Proof.
  destruct (demographic_splits_count (scenario.block 0 10) "Region" "Goa")
    as (c & Hget & Hgoa & _).
  { apply (bool_decide_unpack _). by vm_compute. }
  exists c. split; [exact Hget|]. split.
  - etrans; [exact Hgoa|]. by vm_compute.
  - assert (Hc : Some c
                 = Some (collections.Counter
                           (region <$> passengers (scenario.block 0 10)))).
    { rewrite <- Hget. by vm_compute. }
    injection Hc as ->. by vm_compute.
Defined.
